(** * AdCarbon_FHE: the campaign ledger of [frontend/web/src/App.tsx]

    A shallow embedding of the React component [App]: the three ledger
    operations [loadCampaigns], [submitCampaign] and [calculateCarbon], which
    talk to the key/value contract through [getData], [setData] and
    [isAvailable], and the values the component derives from its [campaigns]
    state on every render (statistics, search filter, pagination, chart).

    Conventions of the embedding.
    - A JavaScript [number] is read at the values it takes in the program.
      The metrics of a campaign are binary64 doubles ([float]) and the
      expression of the footprint is evaluated with the arithmetic of
      doubles.  In a stored record a metric is a number or [null], which is
      what [JSON.stringify] writes for a number that is not finite.  A
      timestamp (whole seconds) and a footprint (0 or a result of
      [Math.round]) are integers ([Z]); sums, differences and comparisons of
      integers are exact.  A quotient of two integers is an exact rational
      ([Qc]), or [None] when the divisor is 0 and JavaScript yields [NaN] or
      an infinity.
    - The values produced by [JSON.parse] carry the static types the program
      gives them: the index is a [string[]], a record is the object literal
      written by [submitCampaign], whose [carbonFootprint], [status] and
      [details] may be missing.
    - A string is the UTF-8 text of a JavaScript string: a character up to
      U+007F is one byte, a character from U+0080 to U+00FF is the byte C2 or
      C3 and one more, a character above U+00FF starts with a byte from C4 on.
      Comparison, concatenation and [includes] on the texts are those of the
      strings.  [toLowerCase] is the one of the language on the characters
      up to U+00FF; what it does above depends on the Unicode tables of the
      engine, and a statement that needs it is made for texts up to U+00FF.
    - [async] functions run sequentially; an [await]ed promise that rejects is
      a thrown exception.  A thrown value is kept by its [message], or as a
      value that has none ([e.message] is [undefined]); it is not [null] or
      [undefined] itself, which no rejection of the wallet or of the contract
      library is.  The callbacks handed to [setTimeout] run after the
      function has completed and are not part of it, and the three-second
      pause of [calculateCarbon] has no effect on the state.
    - [console.error(label, e)] is recorded by its label. *)

From Stdlib Require Import Ascii String QArith Qabs Qcanon Qround Floats.
From stdpp Require Import gmap strings list pretty numbers sorting.

Open Scope Z_scope.

(** ** Numbers *)

Set Warnings "-inexact-float".

Definition of_Z (z : Z) : Qc := Q2Qc (inject_Z z).

(** [Math.round]: the nearest integer, halves towards +infinity, computed
    from the sign, mantissa and exponent of the double ([m * 2 ^ e]).  [None]
    for [NaN] and the infinities, which [JSON.stringify] writes as [null]. *)
Definition Math_round (x : float) : option Z :=
  match Prim2SF x with
  | S754_zero _ => Some 0
  | S754_finite s m e =>
      let n := if s then Z.neg m else Z.pos m in
      Some (if 0 <=? e then n * 2 ^ e
            else (2 * n + 2 ^ (- e)) / 2 ^ (1 - e))
  | _ => None
  end.

(** [Math.ceil], read as an integer. *)
Definition Math_ceil (x : Qc) : Z := Qceiling (this x).

(** [a / b] on integers.  With [b = 0] JavaScript yields [NaN] or an
    infinity: [None]. *)
Definition div (a b : Z) : option Qc :=
  if decide (b = 0) then None else Some (of_Z a / of_Z b)%Qc.

(** [Math.max(...xs)] on a list that has a first element. *)
Definition Math_max (x : Z) (xs : list Z) : Z := fold_left Z.max xs x.

(** ** Strings *)

(** [String.prototype.toLowerCase], letter by letter: a letter of one byte
    (A to Z), and the second byte of a letter that follows the byte C3 (the
    capital letters from U+00C0 to U+00DE, the sign U+00D7 apart); the other
    characters up to U+00FF are their own lower case. *)
Definition lower (c : ascii) : ascii :=
  let n := nat_of_ascii c in
  if ((65 <=? n) && (n <=? 90))%nat then ascii_of_nat (n + 32) else c.

Definition lower_C3 (c : ascii) : ascii :=
  let n := nat_of_ascii c in
  if ((128 <=? n) && (n <=? 158) && negb (n =? 151))%nat
  then ascii_of_nat (n + 32) else c.

Fixpoint lower_text (after_C3 : bool) (s : string) : string :=
  match s with
  | EmptyString => EmptyString
  | String c s' =>
      String (if after_C3 then lower_C3 c else lower c)
        (lower_text (nat_of_ascii c =? 195)%nat s')
  end.

Definition toLowerCase (s : string) : string := lower_text false s.

(** [s.includes(sub)]. *)
Fixpoint includes (s sub : string) : bool :=
  String.prefix sub s ||
  match s with
  | EmptyString => false
  | String _ s' => includes s' sub
  end.

(** [s.substring(0, n)]: the first [n] UTF-16 code units of [s].  A
    character of one, two or three bytes is one unit, a character of four
    bytes (above U+FFFF) is two; when only the first unit of such a character
    is taken, it is the lone surrogate, written as its three bytes.
    [units] counts the units still to take and [more] the bytes still to copy
    of the character being taken. *)
Definition high_surrogate (b0 b1 b2 : N) : string :=
  let h := (55296 + (b0 mod 8 * 256 + b1 mod 64 * 4 + b2 mod 64 / 16) - 64)%N in
  String (ascii_of_N 237)
    (String (ascii_of_N (128 + h / 64 mod 64))
       (String (ascii_of_N (128 + h mod 64)) EmptyString)).

Fixpoint take_units (units more : nat) (s : string) : string :=
  match s with
  | EmptyString => EmptyString
  | String c s' =>
      match more with
      | S more' => String c (take_units units more' s')
      | O =>
          let b := N_of_ascii c in
          match units with
          | O => EmptyString
          | S units' =>
              if (b <? 224)%N then
                String c (take_units units' (if (b <? 192)%N then 0 else 1) s')
              else if (b <? 240)%N then String c (take_units units' 2 s')
              else
                match units' with
                | S units'' => String c (take_units units'' 3 s')
                | O =>
                    match s' with
                    | String c1 (String c2 _) =>
                        high_surrogate b (N_of_ascii c1) (N_of_ascii c2)
                    | _ => EmptyString
                    end
                end
          end
      end
  end.

Definition substring0 (n : nat) (s : string) : string := take_units n 0 s.

(** *** [btoa] *)

(** The characters of a text as bytes, one for each character up to U+00FF;
    [None] when a character is above U+00FF (or the bytes are no text). *)
Fixpoint latin1 (s : string) : option (list N) :=
  match s with
  | EmptyString => Some []
  | String c s' =>
      let b := N_of_ascii c in
      if (b <? 128)%N then cons b <$> latin1 s'
      else
        match s' with
        | String c' s'' =>
            let b' := N_of_ascii c' in
            if ((128 <=? b') && (b' <? 192))%N then
              if (b =? 194)%N then cons b' <$> latin1 s''
              else if (b =? 195)%N then cons (b' + 64)%N <$> latin1 s''
              else None
            else None
        | EmptyString => None
        end
  end.

Definition sextet (n : N) : ascii :=
  default "="%char
    (String.get (N.to_nat n)
       "ABCDEFGHIJKLMNOPQRSTUVWXYZabcdefghijklmnopqrstuvwxyz0123456789+/").

Fixpoint base64 (l : list N) : string :=
  match l with
  | [] => EmptyString
  | a :: l1 =>
      match l1 with
      | [] =>
          String (sextet (a / 4)) (String (sextet (a mod 4 * 16)) "==")
      | b :: l2 =>
          match l2 with
          | [] =>
              String (sextet (a / 4))
                (String (sextet (a mod 4 * 16 + b / 16))
                   (String (sextet (b mod 16 * 4)) "="))
          | c :: l3 =>
              String (sextet (a / 4))
                (String (sextet (a mod 4 * 16 + b / 16))
                   (String (sextet (b mod 16 * 4 + c / 64))
                      (String (sextet (c mod 64)) (base64 l3))))
          end
      end
  end%N.

(** [btoa(s)]: [None] when it throws [InvalidCharacterError]. *)
Definition btoa (s : string) : option string := base64 <$> latin1 s.

(** The double quote. *)
Definition dquote : string := String (ascii_of_nat 34) EmptyString.

Definition hex (n : N) : ascii :=
  default "0"%char (String.get (N.to_nat n) "0123456789abcdef").

(** [JSON.stringify(s)] for a string: the text between double quotes, with
    the double quote, the backslash and the control characters escaped. *)
Definition JSON_escape (c : ascii) : string :=
  let b := N_of_ascii c in
  if (b =? 8)%N then "\b"
  else if (b =? 9)%N then "\t"
  else if (b =? 10)%N then "\n"
  else if (b =? 12)%N then "\f"
  else if (b =? 13)%N then "\r"
  else if (b =? 34)%N then "\" +:+ dquote
  else if (b =? 92)%N then "\\"
  else if (b <? 32)%N then
    "\u00" +:+ String (hex (b / 16)) (String (hex (b mod 16)) EmptyString)
  else String c EmptyString.

Fixpoint JSON_escapes (s : string) : string :=
  match s with
  | EmptyString => EmptyString
  | String c s' => JSON_escape c +:+ JSON_escapes s'
  end.

Definition JSON_stringify_string (s : string) : string :=
  dquote +:+ JSON_escapes s +:+ dquote.

(** *** The decimal text of a number *)

(** [10 ^ n] for any integer [n]. *)
Definition pow10 (n : Z) : Q :=
  if 0 <=? n then inject_Z (10 ^ n) else / inject_Z (10 ^ (- n)).

Definition pow2 (n : Z) : Q :=
  if 0 <=? n then inject_Z (2 ^ n) else / inject_Z (2 ^ (- n)).

(** The integer nearest to [q], a half going to the even one. *)
Definition nearest_even (q : Q) : Z :=
  let f := Qfloor q in
  match ((q - inject_Z f) ?= (1 # 2))%Q with
  | Lt => f
  | Gt => f + 1
  | Eq => if Z.even f then f else f + 1
  end.

(** The decimal numbers [s * 10 ^ (n - k)] with [k] digits in [s] that are
    read back as the double [m * 2 ^ e]: the one nearest to the double among
    those of the decade [n], with its distance to the double. *)
Definition digits_in (m : positive) (e : Z) (k n : Z) : option (Q * Z) :=
  let x := (inject_Z (Z.pos m) * pow2 e)%Q in
  let below :=
    if (Z.pos m =? 2 ^ 52) && (-1074 <? e)
    then (inject_Z (4 * Z.pos m - 1) * pow2 (e - 2))%Q
    else (inject_Z (2 * Z.pos m - 1) * pow2 (e - 1))%Q in
  let above := (inject_Z (2 * Z.pos m + 1) * pow2 (e - 1))%Q in
  let closed := Z.even (Z.pos m) in
  let scale := pow10 (n - k) in
  let lo := (below / scale)%Q in
  let hi := (above / scale)%Q in
  let smin :=
    Z.max (10 ^ (k - 1))
      (if closed || negb (Qeq_bool (inject_Z (Qceiling lo)) lo)
       then Qceiling lo else Qceiling lo + 1) in
  let smax :=
    Z.min (10 ^ k - 1)
      (if closed || negb (Qeq_bool (inject_Z (Qfloor hi)) hi)
       then Qfloor hi else Qfloor hi - 1) in
  if smin <=? smax then
    let s := Z.max smin (Z.min smax (nearest_even (x / scale))) in
    Some (Qabs (inject_Z s * scale - x), s)
  else None.

(** The decade of [m * 2 ^ e]: the least [n] with [m * 2 ^ e < 10 ^ n],
    looked for from an estimate below it (log10 2 is about 0.30103). *)
Fixpoint decade_from (fuel : nat) (m : positive) (e : Z) (n : Z) : Z :=
  match fuel with
  | O => n
  | S fuel' =>
      if Qle_bool (pow10 n) (inject_Z (Z.pos m) * pow2 e)
      then decade_from fuel' m e (n + 1)
      else n
  end.

Definition decade (m : positive) (e : Z) : Z :=
  decade_from 5 m e ((Z.log2 (Z.pos m) + e) * 30103 / 100000 - 1).

Definition nearer (a b : option (Q * Z * Z)) : option (Q * Z * Z) :=
  match a, b with
  | Some (da, _, _), Some (db, _, _) => if Qle_bool da db then a else b
  | Some _, None => a
  | None, _ => b
  end.

(** The shortest digits: the least [k] from [k] on for which some
    [s * 10 ^ (n - k)] is read back as the double, with [s] and [n]. *)
Fixpoint shortest (fuel : nat) (m : positive) (e : Z) (n0 : Z) (k : Z)
  : option (Z * Z * Z) :=
  match fuel with
  | O => None
  | S fuel' =>
      let within n := (fun '(d, s) => (d, s, n)) <$> digits_in m e k n in
      match nearer (within n0) (nearer (within (n0 - 1)) (within (n0 + 1))) with
      | Some (_, s, n) => Some (k, s, n)
      | None => shortest fuel' m e n0 (k + 1)
      end
  end.

Fixpoint zeros (n : nat) : string :=
  match n with O => "" | S n' => String "0" (zeros n') end.

(** [Number::toString] of the positive double [m * 2 ^ e]. *)
Definition positive_toString (m : positive) (e : Z) : string :=
  match shortest 17 m e (decade m e) 1 with
  | None => ""
  | Some (k, s, n) =>
      let digits : string := pretty s in
      if (-5 <=? n) && (n <=? 21) then
        if k <=? n then digits +:+ zeros (Z.to_nat (n - k))
        else if 0 <? n then
          String.substring 0 (Z.to_nat n) digits +:+ "."
          +:+ String.substring (Z.to_nat n) (Z.to_nat (k - n)) digits
        else "0." +:+ zeros (Z.to_nat (- n)) +:+ digits
      else
        let exponent : string :=
          (if 0 <=? n - 1 then "+" else "-") +:+ pretty (Z.abs (n - 1)) in
        if k =? 1 then digits +:+ "e" +:+ exponent
        else String.substring 0 1 digits +:+ "."
             +:+ String.substring 1 (Z.to_nat (k - 1)) digits
             +:+ "e" +:+ exponent
  end.

(** [JSON.stringify(x)] for a number: its decimal text ([Number::toString]),
    [null] when it is not finite. *)
Definition JSON_stringify_number (x : float) : string :=
  match Prim2SF x with
  | S754_zero _ => "0"
  | S754_finite s m e => (if s then "-" else "") +:+ positive_toString m e
  | _ => "null"
  end.


(** ** Data model *)

(** [status: "processing" | "completed" | "error"]. *)
Inductive Status := processing | completed | error.

Global Instance Status_eq_dec : EqDecision Status.
Proof. solve_decision. Defined.

(** The [details] object of a campaign: four metrics, each a number or
    [null] ([None]). *)
Record Details := {
  servers : option float;
  bandwidth : option float;
  impressions : option float;
  duration : option float;
}.

(** A metric in arithmetic: [null] counts as 0. *)
Definition number (x : option float) : float := default 0%float x.

(** A metric as [JSON.stringify] writes it and [JSON.parse] reads it back:
    [null] for a number that is not finite, 0 for the negative zero. *)
Definition JSON_number (x : option float) : option float :=
  match x with
  | Some x =>
      if is_finite x then Some (if is_zero x then 0%float else x) else None
  | None => None
  end.

Definition JSON_details (d : Details) : Details :=
  {| servers := JSON_number (servers d);
     bandwidth := JSON_number (bandwidth d);
     impressions := JSON_number (impressions d);
     duration := JSON_number (duration d) |}.

(** [interface CampaignData]. *)
Record CampaignData := {
  id : string;
  name : string;
  encryptedData : string;
  timestamp : Z;
  owner : string;
  carbonFootprint : Z;
  status : Status;
  details : option Details;
}.

(** The object stored under a record key: the literal [campaignData] of
    [submitCampaign].  [loadCampaigns] supplies a default for a missing
    [carbonFootprint] and [status], and [details] is optional. *)
Module Stored.
Record t := {
  name : string;
  data : string;
  timestamp : Z;
  owner : string;
  carbonFootprint : option Z;
  status : option Status;
  details : option Details;
}.
End Stored.

(** The state variable [newCampaignData] (the creation form), at its declared
    type: a field holds the number that stands in its input. *)
Module Form.
Record t := {
  name : string;
  servers : float;
  bandwidth : float;
  impressions : float;
  duration : float;
}.

Definition empty : t :=
  {| name := ""; servers := 0%float; bandwidth := 0%float;
     impressions := 0%float; duration := 0%float |}.
End Form.

(** [JSON.stringify(newCampaignData)]. *)
Definition JSON_stringify_form (f : Form.t) : string :=
  "{" +:+ dquote +:+ "name" +:+ dquote +:+ ":"
  +:+ JSON_stringify_string (Form.name f)
  +:+ "," +:+ dquote +:+ "servers" +:+ dquote +:+ ":"
  +:+ JSON_stringify_number (Form.servers f)
  +:+ "," +:+ dquote +:+ "bandwidth" +:+ dquote +:+ ":"
  +:+ JSON_stringify_number (Form.bandwidth f)
  +:+ "," +:+ dquote +:+ "impressions" +:+ dquote +:+ ":"
  +:+ JSON_stringify_number (Form.impressions f)
  +:+ "," +:+ dquote +:+ "duration" +:+ dquote +:+ ":"
  +:+ JSON_stringify_number (Form.duration f)
  +:+ "}".

(** The bytes returned by [getData], seen through
    [JSON.parse(ethers.toUtf8String(bytes))]: no bytes at all
    ([bytes.length === 0], also what a key never written holds), bytes on
    which the decoding throws, or the text of a JSON value. *)
Inductive bytes (A : Type) :=
| Empty
| Garbled
| Json (value : A).
Arguments Empty {A}.
Arguments Garbled {A}.
Arguments Json {A} value.

(** The two kinds of key: ["campaign_keys"] and [`campaign_${id}`]. *)
Inductive key :=
| campaign_keys
| campaign_ (id : string).

Global Instance key_eq_dec : EqDecision key.
Proof. solve_decision. Defined.

Definition key_name (k : key) : string :=
  match k with
  | campaign_keys => "campaign_keys"
  | campaign_ i => "campaign_" +:+ i
  end.

(** What the contract stores: the key index and the record of each id.  (The
    record key of the id ["keys"] would be the index key itself; the ids of
    [submitCampaign] start with the digits of [Date.now()].) *)
Record Ledger := {
  index : bytes (list string);
  records : gmap string (bytes Stored.t);
}.

Definition record_of (l : Ledger) (i : string) : bytes Stored.t :=
  default Empty (records l !! i).

(** ** The transport *)

(** A value that is thrown, or with which a promise is rejected, as a
    handler sees it: with its [message], or without one ([e.message] is
    [undefined]). *)
Inductive exn :=
| Error (message : string)
| Bare.

(** What [getContractReadOnly] and [getContractWithSigner] give: a contract,
    [null], or a rejected promise. *)
Inductive handle :=
| Contract
| Null
| Unreachable (e : exn).

(** The answer of a contract call. *)
Inductive reply (A : Type) :=
| Reply (a : A)
| Reject (e : exn).
Arguments Reply {A} a.
Arguments Reject {A} e.

Record Transport := {
  readOnly : handle;
  withSigner : handle;
  available : reply bool;
  (** the calls [getData(k)] and [setData(k, _)] that reject, with the value *)
  readFault : key -> option exn;
  writeFault : key -> option exn;
}.

(** A transport on which every call succeeds. *)
Definition live : Transport :=
  {| readOnly := Contract; withSigner := Contract; available := Reply true;
     readFault := fun _ => None; writeFault := fun _ => None |}.

(** ** The component state *)

(** The state variable [transactionStatus]. *)
Module Tx.
Inductive kind := pending | success | error.

Record t := {
  visible : bool;
  status : kind;
  message : string;
}.
End Tx.

(** The [useState] variables of [App] that the ledger operations and the
    derived views read or write. *)
Record App := {
  account : string;
  provider : bool;               (** [provider !== null] *)
  loading : bool;
  campaigns : list CampaignData;
  isRefreshing : bool;
  creating : bool;
  transactionStatus : Tx.t;
  newCampaignData : Form.t;
  searchTerm : string;
  currentPage : Z;
}.

(** A call made on the contract. *)
Inductive Call :=
| IsAvailable
| GetData (k : key)
| SetData (k : key).

Global Instance Call_eq_dec : EqDecision Call.
Proof. solve_decision. Defined.

Definition is_write (c : Call) : bool :=
  match c with SetData _ => true | _ => false end.

(** Everything a run can read or change: the contract storage, the transport,
    the component state, what went to [console.error] and [alert], and the
    contract calls in the order they were made. *)
Record World := {
  ledger : Ledger;
  net : Transport;
  app : App;
  console : list string;
  alerts : list string;
  calls : list Call;
}.

Definition with_ledger (f : Ledger -> Ledger) (w : World) : World :=
  {| ledger := f (ledger w); net := net w; app := app w;
     console := console w; alerts := alerts w; calls := calls w |}.

Definition with_app (f : App -> App) (w : World) : World :=
  {| ledger := ledger w; net := net w; app := f (app w);
     console := console w; alerts := alerts w; calls := calls w |}.

Definition with_console (f : list string -> list string) (w : World) : World :=
  {| ledger := ledger w; net := net w; app := app w;
     console := f (console w); alerts := alerts w; calls := calls w |}.

Definition with_alerts (f : list string -> list string) (w : World) : World :=
  {| ledger := ledger w; net := net w; app := app w;
     console := console w; alerts := f (alerts w); calls := calls w |}.

Definition with_calls (f : list Call -> list Call) (w : World) : World :=
  {| ledger := ledger w; net := net w; app := app w;
     console := console w; alerts := alerts w; calls := f (calls w) |}.

(** ** Computations: state and exceptions *)

Inductive completion (A : Type) :=
| Normal (a : A)
| Throw (e : exn).
Arguments Normal {A} a.
Arguments Throw {A} e.

Definition M (A : Type) : Type := World -> completion A * World.

Definition ret {A} (a : A) : M A := fun w => (Normal a, w).

Definition bind {A B} (m : M A) (k : A -> M B) : M B :=
  fun w =>
    match m w with
    | (Normal a, w') => k a w'
    | (Throw e, w') => (Throw e, w')
    end.

Notation "x <- m ;; k" := (bind m (fun x => k))
  (at level 100, m at next level, right associativity).
Notation "m ;;; k" := (bind m (fun _ => k))
  (at level 100, right associativity).

(** [throw new Error(message)]. *)
Definition throw {A} (message : string) : M A :=
  fun w => (Throw (Error message), w).

(** [try { body } catch (e) { handler(e) }]. *)
Definition try_catch {A} (body : M A) (handler : exn -> M A) : M A :=
  fun w =>
    match body w with
    | (Normal a, w') => (Normal a, w')
    | (Throw e, w') => handler e w'
    end.

(** [try { body } finally { cleanup }]. *)
Definition try_finally {A} (body : M A) (cleanup : M unit) : M A :=
  fun w =>
    match body w with
    | (r, w') =>
        match cleanup w' with
        | (Normal _, w'') => (r, w'')
        | (Throw e, w'') => (Throw e, w'')
        end
    end.

Definition modify (f : World -> World) : M unit := fun w => (Normal tt, f w).

Definition console_error (message : string) : M unit :=
  modify (with_console (fun c => c ++ [message])).

Definition alert (message : string) : M unit :=
  modify (with_alerts (fun a => a ++ [message])).

Definition called (c : Call) : M unit :=
  modify (with_calls (fun cs => cs ++ [c])).

(** *** The state setters *)

Definition setCampaigns (l : list CampaignData) : M unit :=
  modify (with_app (fun a =>
    {| account := account a; provider := provider a; loading := loading a;
       campaigns := l; isRefreshing := isRefreshing a; creating := creating a;
       transactionStatus := transactionStatus a;
       newCampaignData := newCampaignData a; searchTerm := searchTerm a;
       currentPage := currentPage a |})).

Definition setLoading (b : bool) : M unit :=
  modify (with_app (fun a =>
    {| account := account a; provider := provider a; loading := b;
       campaigns := campaigns a; isRefreshing := isRefreshing a;
       creating := creating a; transactionStatus := transactionStatus a;
       newCampaignData := newCampaignData a; searchTerm := searchTerm a;
       currentPage := currentPage a |})).

Definition setIsRefreshing (b : bool) : M unit :=
  modify (with_app (fun a =>
    {| account := account a; provider := provider a; loading := loading a;
       campaigns := campaigns a; isRefreshing := b; creating := creating a;
       transactionStatus := transactionStatus a;
       newCampaignData := newCampaignData a; searchTerm := searchTerm a;
       currentPage := currentPage a |})).

Definition setCreating (b : bool) : M unit :=
  modify (with_app (fun a =>
    {| account := account a; provider := provider a; loading := loading a;
       campaigns := campaigns a; isRefreshing := isRefreshing a; creating := b;
       transactionStatus := transactionStatus a;
       newCampaignData := newCampaignData a; searchTerm := searchTerm a;
       currentPage := currentPage a |})).

Definition setTransactionStatus (t : Tx.t) : M unit :=
  modify (with_app (fun a =>
    {| account := account a; provider := provider a; loading := loading a;
       campaigns := campaigns a; isRefreshing := isRefreshing a;
       creating := creating a; transactionStatus := t;
       newCampaignData := newCampaignData a; searchTerm := searchTerm a;
       currentPage := currentPage a |})).

Definition setCurrentPage (p : Z) : M unit :=
  modify (with_app (fun a =>
    {| account := account a; provider := provider a; loading := loading a;
       campaigns := campaigns a; isRefreshing := isRefreshing a;
       creating := creating a; transactionStatus := transactionStatus a;
       newCampaignData := newCampaignData a; searchTerm := searchTerm a;
       currentPage := p |})).

(** *** The contract *)

(** [await getContractReadOnly()]: [true] for a contract, [false] for [null]. *)
Definition getContractReadOnly : M bool :=
  fun w =>
    match readOnly (net w) with
    | Contract => (Normal true, w)
    | Null => (Normal false, w)
    | Unreachable e => (Throw e, w)
    end.

(** [await getContractWithSigner()]. *)
Definition getContractWithSigner : M bool :=
  fun w =>
    match withSigner (net w) with
    | Contract => (Normal true, w)
    | Null => (Normal false, w)
    | Unreachable e => (Throw e, w)
    end.

(** [await contract.isAvailable()]. *)
Definition isAvailable : M bool :=
  called IsAvailable ;;;
  fun w =>
    match available (net w) with
    | Reply b => (Normal b, w)
    | Reject e => (Throw e, w)
    end.

Definition answer {A} (k : key) (read : Ledger -> A) : M A :=
  fun w =>
    match readFault (net w) k with
    | Some e => (Throw e, w)
    | None => (Normal (read (ledger w)), w)
    end.

(** [await contract.getData("campaign_keys")]. *)
Definition getData_keys : M (bytes (list string)) :=
  called (GetData campaign_keys) ;;; answer campaign_keys index.

(** [await contract.getData(`campaign_${key}`)]. *)
Definition getData_campaign (i : string) : M (bytes Stored.t) :=
  called (GetData (campaign_ i)) ;;;
  answer (campaign_ i) (fun l => record_of l i).

Definition store (k : key) (write : Ledger -> Ledger) : M unit :=
  fun w =>
    match writeFault (net w) k with
    | Some e => (Throw e, w)
    | None => (Normal tt, with_ledger write w)
    end.

(** [await contract.setData("campaign_keys", ethers.toUtf8Bytes(JSON.stringify(keys)))]. *)
Definition setData_keys (keys : list string) : M unit :=
  called (SetData campaign_keys) ;;;
  store campaign_keys
    (fun l => {| index := Json keys; records := records l |}).

(** [await contract.setData(`campaign_${id}`, ethers.toUtf8Bytes(JSON.stringify(c)))]. *)
Definition setData_campaign (i : string) (c : Stored.t) : M unit :=
  called (SetData (campaign_ i)) ;;;
  store (campaign_ i)
    (fun l => {| index := index l; records := <[i := Json c]> (records l) |}).

(** [bytes.length > 0]. *)
Definition nonempty {A} (b : bytes A) : bool :=
  match b with Empty => false | _ => true end.

(** [JSON.parse(ethers.toUtf8String(bytes))]; the text of the [SyntaxError]
    depends on the engine. *)
Definition JSON_parse {A} (b : bytes A) : M A :=
  match b with
  | Json v => ret v
  | _ => throw "Unexpected token in JSON"
  end.

(** ** [loadCampaigns] *)

(** The object pushed on [list] for [key]:
    [carbonFootprint: campaignData.carbonFootprint || 0] and
    [status: campaignData.status || "processing"]. *)
Definition entry (key : string) (campaignData : Stored.t) : CampaignData :=
  {| id := key;
     name := Stored.name campaignData;
     encryptedData := Stored.data campaignData;
     timestamp := Stored.timestamp campaignData;
     owner := Stored.owner campaignData;
     carbonFootprint := default 0 (Stored.carbonFootprint campaignData);
     status := default processing (Stored.status campaignData);
     details := Stored.details campaignData |}.

(** [let keys = []; if (keysBytes.length > 0) { try { keys = JSON.parse(..) }
    catch (e) { console.error(label, e) } }]. *)
Definition parse_keys (label : string) (keysBytes : bytes (list string))
  : M (list string) :=
  if nonempty keysBytes then
    try_catch (JSON_parse keysBytes) (fun _ => console_error label ;;; ret [])
  else ret [].

(** The body of [for (const key of keys)]; the array [list] is threaded
    through as [lst], [list.push(x)] is [lst ++ [x]]. *)
Definition loadCampaign (lst : list CampaignData) (key : string)
  : M (list CampaignData) :=
  try_catch
    (campaignBytes <- getData_campaign key ;;
     if nonempty campaignBytes then
       try_catch
         (campaignData <- JSON_parse campaignBytes ;;
          ret (lst ++ [entry key campaignData]))
         (fun _ =>
            console_error ("Error parsing campaign data for " +:+ key +:+ ":") ;;;
            ret lst)
     else ret lst)
    (fun _ =>
       console_error ("Error loading campaign " +:+ key +:+ ":") ;;; ret lst).

Fixpoint for_of {A B} (xs : list A) (body : B -> A -> M B) (acc : B) : M B :=
  match xs with
  | [] => ret acc
  | x :: xs' => acc' <- body acc x ;; for_of xs' body acc'
  end.

(** [Array.prototype.sort(compare)]: a stable sort.  [x] goes before [y] when
    [compare(x, y) <= 0], so elements that compare equal keep their order.
    (The order is fixed by the language for a comparator that is a total
    preorder, as [newest_first] below is; the algorithm is the engine's.) *)
Fixpoint insert {A} (compare : A -> A -> Z) (x : A) (l : list A) : list A :=
  match l with
  | [] => [x]
  | y :: l' =>
      if decide (compare x y ≤ 0) then x :: y :: l'
      else y :: insert compare x l'
  end.

Definition Array_sort {A} (compare : A -> A -> Z) (l : list A) : list A :=
  foldr (insert compare) [] l.

(** [(a, b) => b.timestamp - a.timestamp]. *)
Definition newest_first (a b : CampaignData) : Z :=
  timestamp b - timestamp a.

Definition loadCampaigns : M unit :=
  setIsRefreshing true ;;;
  try_finally
    (try_catch
       (contract <- getContractReadOnly ;;
        if negb contract then ret tt
        else
          isAvailable <- isAvailable ;;
          if negb isAvailable then console_error "Contract is not available"
          else
            keysBytes <- getData_keys ;;
            keys <- parse_keys "Error parsing campaign keys:" keysBytes ;;
            lst <- for_of keys loadCampaign [] ;;
            setCampaigns (Array_sort newest_first lst))
       (fun _ => console_error "Error loading campaigns:"))
    (setIsRefreshing false ;;; setLoading false).

Arguments loadCampaigns : simpl never.

(** ** [submitCampaign] *)

(** [e.message || "Unknown error"]. *)
Definition or_unknown (e : exn) : string :=
  match e with
  | Error message => if decide (message = "") then "Unknown error" else message
  | Bare => "Unknown error"
  end.

(** The values the run takes from its environment:
    [Date.now()] at the two places it is called,
    [Math.random().toString(36).substring(2, 9)], and the message of the
    [InvalidCharacterError] that the [btoa] of the host throws.  [Date.now()]
    is a whole number of milliseconds, so [Math.floor(Date.now() / 1000)] is
    the integer quotient. *)
Record Ambient := {
  now_id : Z;
  now_timestamp : Z;
  random36 : string;
  invalid_character : string;
}.

(** [`FHE-${btoa(JSON.stringify(newCampaignData))}`]: [btoa] throws when the
    text has a character above U+00FF. *)
Definition encrypt (env : Ambient) (newCampaignData : Form.t) : M string :=
  match btoa (JSON_stringify_form newCampaignData) with
  | Some b => ret ("FHE-" +:+ b)
  | None => throw (invalid_character env)
  end.

(** The [details] of the object literal [campaignData], as [JSON.stringify]
    writes them. *)
Definition details_of (newCampaignData : Form.t) : Details :=
  JSON_details
    {| servers := Some (Form.servers newCampaignData);
       bandwidth := Some (Form.bandwidth newCampaignData);
       impressions := Some (Form.impressions newCampaignData);
       duration := Some (Form.duration newCampaignData) |}.

(** The [catch] block of [submitCampaign]: [e.message.includes(..)] is
    evaluated first, and throws a [TypeError] when [e] has no message. *)
Definition submit_failed (e : exn) : M unit :=
  match e with
  | Bare => throw "Cannot read properties of undefined (reading 'includes')"
  | Error message =>
      let errorMessage :=
        if includes message "user rejected transaction"
        then "Transaction rejected by user"
        else "Submission failed: " +:+ or_unknown e in
      setTransactionStatus
        {| Tx.visible := true; Tx.status := Tx.error;
           Tx.message := errorMessage |}
  end.

Definition submitCampaign (env : Ambient) : M unit :=
  fun w0 =>
  let a := app w0 in
  (if negb (provider a) then alert "Please connect wallet first"
   else
     setCreating true ;;;
     setTransactionStatus
       {| Tx.visible := true; Tx.status := Tx.pending;
          Tx.message := "Encrypting campaign data with FHE..." |} ;;;
     try_finally
       (try_catch
          (encryptedData <- encrypt env (newCampaignData a) ;;
           contract <- getContractWithSigner ;;
           (if negb contract then throw "Failed to get contract with signer"
            else ret tt) ;;;
           let campaignId := pretty (now_id env) +:+ "-" +:+ random36 env in
           let campaignData :=
             {| Stored.name := Form.name (newCampaignData a);
                Stored.data := encryptedData;
                Stored.timestamp := now_timestamp env / 1000;
                Stored.owner := account a;
                Stored.carbonFootprint := Some 0;
                Stored.status := Some processing;
                Stored.details := Some (details_of (newCampaignData a)) |} in
           setData_campaign campaignId campaignData ;;;
           keysBytes <- getData_keys ;;
           keys <- parse_keys "Error parsing keys:" keysBytes ;;
           setData_keys (keys ++ [campaignId]) ;;;
           setTransactionStatus
             {| Tx.visible := true; Tx.status := Tx.success;
                Tx.message := "Campaign data encrypted and submitted!" |} ;;;
           loadCampaigns)
          submit_failed)
       (setCreating false)) w0.

(** ** [calculateCarbon] *)

(** [campaignData.details.servers * 0.5 + ... ]: reading a property of a
    missing [details] throws a [TypeError]. *)
Definition read_details (campaignData : Stored.t) : M Details :=
  match Stored.details campaignData with
  | Some d => ret d
  | None => throw "Cannot read properties of undefined (reading 'servers')"
  end.

Definition carbon_of (d : Details) : option Z :=
  Math_round
    (number (servers d) * 0.5 + number (bandwidth d) * 0.02
     + number (impressions d) * 0.001 + number (duration d) * 0.1)%float.

(** [{ ...campaignData, carbonFootprint: carbon, status: "completed" }], as
    [JSON.stringify] writes it: a footprint that is not finite ([None]) and a
    metric that is not finite are written as [null]. *)
Definition updated (campaignData : Stored.t) (carbon : option Z) : Stored.t :=
  {| Stored.name := Stored.name campaignData;
     Stored.data := Stored.data campaignData;
     Stored.timestamp := Stored.timestamp campaignData;
     Stored.owner := Stored.owner campaignData;
     Stored.carbonFootprint := carbon;
     Stored.status := Some completed;
     Stored.details := JSON_details <$> Stored.details campaignData |}.

Definition calculateCarbon (campaignId : string) : M unit :=
  fun w0 =>
  (if negb (provider (app w0)) then alert "Please connect wallet first"
   else
     setTransactionStatus
       {| Tx.visible := true; Tx.status := Tx.pending;
          Tx.message := "Calculating carbon footprint with FHE..." |} ;;;
     try_catch
       (contract <- getContractWithSigner ;;
        (if negb contract then throw "Failed to get contract with signer"
         else ret tt) ;;;
        campaignBytes <- getData_campaign campaignId ;;
        (if nonempty campaignBytes then ret tt
         else throw "Campaign not found") ;;;
        campaignData <- JSON_parse campaignBytes ;;
        d <- read_details campaignData ;;
        let carbon := carbon_of d in
        let updatedCampaign := updated campaignData carbon in
        setData_campaign campaignId updatedCampaign ;;;
        setTransactionStatus
          {| Tx.visible := true; Tx.status := Tx.success;
             Tx.message := "Carbon footprint calculated successfully!" |} ;;;
        loadCampaigns)
       (fun message =>
          setTransactionStatus
            {| Tx.visible := true; Tx.status := Tx.error;
               Tx.message := "Calculation failed: " +:+ or_unknown message |})) w0.

(** [isOwner(address)]: [account.toLowerCase() === address.toLowerCase()]. *)
Definition isOwner (a : App) (address : string) : bool :=
  bool_decide (toLowerCase (account a) = toLowerCase address).

(** The row of a campaign shows the button that calls [calculateCarbon] when
    [isOwner(campaign.owner) && campaign.status === "processing"]. *)
Definition offersCalculate (a : App) (campaign : CampaignData) : bool :=
  isOwner a (owner campaign) && bool_decide (status campaign = processing).

(** ** Values derived from the state on every render *)

(** *** Statistics *)

Definition completedCount (campaigns : list CampaignData) : nat :=
  length (filter (fun c => status c = completed) campaigns).

Definition processingCount (campaigns : list CampaignData) : nat :=
  length (filter (fun c => status c = processing) campaigns).

(** [x || 0] on a number. *)
Definition or_zero (x : Z) : Z :=
  if decide (x = 0) then 0 else x.

(** [campaigns.reduce((sum, c) => sum + (c.carbonFootprint || 0), 0)]. *)
Definition totalCarbon (campaigns : list CampaignData) : Z :=
  fold_left (fun sum c => sum + or_zero (carbonFootprint c)) campaigns 0.

(** [campaigns.length > 0 ? totalCarbon / campaigns.length : 0]. *)
Definition avgCarbon (campaigns : list CampaignData) : option Qc :=
  if (0 <? length campaigns)%nat
  then div (totalCarbon campaigns) (Z.of_nat (length campaigns))
  else Some 0%Qc.

(** *** Search filter *)

Definition matches (term : string) (campaign : CampaignData) : bool :=
  includes (toLowerCase (name campaign)) (toLowerCase term)
  || includes (toLowerCase (owner campaign)) (toLowerCase term).

Definition filteredCampaigns (a : App) : list CampaignData :=
  List.filter (matches (searchTerm a)) (campaigns a).

(** *** Pagination *)

(** [const [itemsPerPage] = useState(5)], never set. *)
Definition itemsPerPage : Z := 5.

(** A relative index of [Array.prototype.slice]: negative counts from the
    end, and the result is clamped to [0 .. len]. *)
Definition relative (len i : Z) : Z :=
  if i <? 0 then Z.max (len + i) 0 else Z.min i len.

(** [l.slice(start, end)]. *)
Definition slice {A} (l : list A) (start final : Z) : list A :=
  let len := Z.of_nat (length l) in
  let k := relative len start in
  take (Z.to_nat (relative len final - k)) (drop (Z.to_nat k) l).

Definition indexOfLastItem (a : App) : Z := currentPage a * itemsPerPage.

Definition indexOfFirstItem (a : App) : Z := indexOfLastItem a - itemsPerPage.

Definition currentItems (a : App) : list CampaignData :=
  slice (filteredCampaigns a) (indexOfFirstItem a) (indexOfLastItem a).

(** [Math.ceil(filteredCampaigns.length / itemsPerPage)]. *)
Definition totalPages (a : App) : Z :=
  Math_ceil
    (of_Z (Z.of_nat (length (filteredCampaigns a))) / of_Z itemsPerPage)%Qc.

Definition paginate (pageNumber : Z) : M unit := setCurrentPage pageNumber.

(** The page numbers the pagination buttons pass to [paginate]: the buttons
    are rendered with the rows, when [totalPages > 1]; "Previous" is disabled
    on page 1 and "Next" on page [totalPages]. *)
Definition pageButtons (a : App) : list Z :=
  if (length (currentItems a) =? 0)%nat then []
  else if 1 <? totalPages a then
    (if currentPage a =? 1 then [] else [currentPage a - 1])
    ++ map (fun i => Z.of_nat i + 1) (seq 0 (Z.to_nat (totalPages a)))
    ++ (if currentPage a =? totalPages a then [] else [currentPage a + 1])
  else [].

(** *** The chart *)

Record Bar := {
  label : string;
  (** the percentage of [width: `${(c.carbonFootprint / maxCarbon) * 100}%`];
      [None] when it is [NaN] or infinite *)
  width : option Qc;
  value : Z;
}.

Global Instance Bar_eq_dec : EqDecision Bar.
Proof. solve_decision. Defined.

Inductive Chart :=
| NoData          (** "No carbon data available" *)
| NoCompleted     (** "No completed analyses yet" *)
| Bars (bars : list Bar).

Global Instance Chart_eq_dec : EqDecision Chart.
Proof. solve_decision. Defined.

Definition bar (maxCarbon : Z) (campaign : CampaignData) : Bar :=
  {| label := substring0 10 (name campaign) +:+ "...";
     width := (fun q => q * of_Z 100)%Qc <$> div (carbonFootprint campaign) maxCarbon;
     value := carbonFootprint campaign |}.

Definition renderCarbonChart (campaigns : list CampaignData) : Chart :=
  if (length campaigns =? 0)%nat then NoData
  else
    let completedCampaigns := filter (fun c => status c = completed) campaigns in
    match completedCampaigns with
    | [] => NoCompleted
    | c :: cs =>
        let maxCarbon := Math_max (carbonFootprint c) (map carbonFootprint cs) in
        Bars (map (bar maxCarbon) (slice completedCampaigns 0 5))
    end.


(** * Vocabulary of the properties *)

(** No call of the list is a [setData]. *)
Definition quiet (cs : list Call) : Prop :=
  Forall (fun c => is_write c = false) cs.

(** [w'] comes from [w] without a write to the contract, an [alert] or a
    change of the session part of the state. *)
Record frame (w w' : World) : Prop := {
  frame_ledger : ledger w' = ledger w;
  frame_net : net w' = net w;
  frame_calls : exists cs, calls w' = calls w ++ cs /\ quiet cs;
  frame_alerts : alerts w' = alerts w;
  frame_account : account (app w') = account (app w);
  frame_provider : provider (app w') = provider (app w);
  frame_creating : creating (app w') = creating (app w);
  frame_status : transactionStatus (app w') = transactionStatus (app w);
  frame_page : currentPage (app w') = currentPage (app w);
}.

Definition framed {A} (m : M A) : Prop := forall w, frame w (m w).2.


(** The ids of the index; none when the index blob is absent or does not
    parse. *)
Definition index_ids (l : Ledger) : list string :=
  match index l with
  | Json keys => keys
  | _ => []
  end.

(** The record of an id whose blob is non-empty and parses. *)
Definition parsed (l : Ledger) (i : string) : option CampaignData :=
  match record_of l i with
  | Json c => Some (entry i c)
  | _ => None
  end.

(** The same, when moreover the read of the record key is answered. *)
Definition fetched (t : Transport) (l : Ledger) (i : string) : option CampaignData :=
  match readFault t (campaign_ i) with
  | Some _ => None
  | None => parsed l i
  end.

(** What a load writes on the console for the index blob and for the id
    [i]: nothing when the blob is read and parses or is empty. *)
Definition index_logged (l : Ledger) : list string :=
  match index l with
  | Garbled => ["Error parsing campaign keys:"]
  | _ => []
  end.

Definition logged (t : Transport) (l : Ledger) (i : string) : list string :=
  match readFault t (campaign_ i) with
  | Some _ => ["Error loading campaign " +:+ i +:+ ":"]
  | None =>
      match record_of l i with
      | Garbled => ["Error parsing campaign data for " +:+ i +:+ ":"]
      | _ => []
      end
  end.

(** The transport answers every read. *)
Definition readable (t : Transport) : Prop :=
  readOnly t = Contract /\ available t = Reply true /\
  forall k, readFault t k = None.

(** How a computation completes from [w], and the world it leaves. *)
Definition outcome {A} (m : M A) (w : World) : completion A := (m w).1.

Definition after {A} (m : M A) (w : World) : World := (m w).2.

(** The transport fails as a whole: the contract cannot be obtained, or
    [isAvailable] or the read of the index rejects. *)
Definition unreachable (t : Transport) : bool :=
  match readOnly t with
  | Unreachable _ => true
  | Null => false
  | Contract =>
      match available t with
      | Reject _ => true
      | Reply false => false
      | Reply true => bool_decide (is_Some (readFault t campaign_keys))
      end
  end.

(** The number that a double is: [None] for [NaN] and the infinities. *)
Definition exact (x : float) : option Q :=
  match Prim2SF x with
  | S754_zero _ => Some 0%Q
  | S754_finite s m e =>
      let n := if s then Z.neg m else Z.pos m in
      Some (if 0 <=? e then inject_Z (n * 2 ^ e)
            else n # Z.to_pos (2 ^ (- e)))
  | _ => None
  end.

(** [z] is the integer nearest to [q], the upper one of two. *)
Definition nearest (q : Q) (z : Z) : Prop :=
  (inject_Z z - (1 # 2) <= q)%Q /\ (q < inject_Z z + (1 # 2))%Q.

(** The footprint in the words of the specification,
    [round(servers*0.5 + bandwidthGB*0.02 + impressions*0.001 +
    durationDays*0.1)], in the arithmetic of the rationals. *)
Definition footprint_formula (servers bandwidthGB impressions durationDays : Q)
  : Z :=
  Qfloor (servers * (5 # 10) + bandwidthGB * (2 # 100)
          + impressions * (1 # 1000) + durationDays * (1 # 10) + (1 # 2))%Q.

(** The same on the metrics of a record, each taken as the number it is. *)
Definition specified (m : Details) : option Z :=
  s ← exact (number (servers m));
  b ← exact (number (bandwidth m));
  i ← exact (number (impressions m));
  d ← exact (number (duration m));
  Some (footprint_formula s b i d).

(** The number of records in status [s]. *)
Fixpoint count_status (s : Status) (l : list CampaignData) : nat :=
  match l with
  | [] => 0
  | c :: l' => (if decide (status c = s) then 1 else 0) + count_status s l'
  end.

(** The sum of the footprints. *)
Fixpoint sum_footprints (l : list CampaignData) : Z :=
  match l with
  | [] => 0
  | c :: l' => carbonFootprint c + sum_footprints l'
  end.

(** The completed records, and those of them the chart shows. *)
Definition completed_of (l : list CampaignData) : list CampaignData :=
  filter (fun c => status c = completed) l.



(** The page in range nearest to [p]. *)
Definition clamp (pages p : Z) : Z := Z.max 1 (Z.min p pages).

(** * Concrete inputs *)

Definition idle : Tx.t :=
  {| Tx.visible := false; Tx.status := Tx.pending; Tx.message := "" |}.

(** The state of a connected session of [who] showing [shown]. *)
Definition session (who : string) (shown : list CampaignData) : App :=
  {| account := who; provider := true; loading := false; campaigns := shown;
     isRefreshing := false; creating := false; transactionStatus := idle;
     newCampaignData := Form.empty; searchTerm := ""; currentPage := 1 |}.

Definition world (l : Ledger) (t : Transport) (a : App) : World :=
  {| ledger := l; net := t; app := a; console := []; alerts := []; calls := [] |}.

(** The record ["a"] of the load scenario, and some metrics. *)
Definition record_X : Stored.t :=
  {| Stored.name := "X"; Stored.data := "FHE-e30="; Stored.timestamp := 100;
     Stored.owner := "0x1"; Stored.carbonFootprint := None;
     Stored.status := Some processing; Stored.details := None |}.

(** Index [["a", "b"]], ["a"] parses and ["b"] does not. *)
Definition ledger_ab : Ledger :=
  {| index := Json ["a"; "b"];
     records := <["a" := Json record_X]> (<["b" := Garbled]> ∅) |}.

Definition offline : Transport :=
  {| readOnly := Unreachable (Error "could not detect network");
     withSigner := Unreachable (Error "could not detect network");
     available := Reject (Error "could not detect network");
     readFault := fun _ => Some (Error "could not detect network");
     writeFault := fun _ => Some (Error "could not detect network") |}.

(** The metrics of the compute scenario. *)
Definition metrics_2_10_1000_5 : Details :=
  {| servers := Some 2%float; bandwidth := Some 10%float;
     impressions := Some 1000%float; duration := Some 5%float |}.

(** Metrics on which the sum of the doubles is just below 1.5, and a
    campaign that has them. *)
Definition metrics_1_10_600_2 : Details :=
  {| servers := Some 1%float; bandwidth := Some 10%float;
     impressions := Some 600%float; duration := Some 2%float |}.

Definition record_Camp2 : Stored.t :=
  {| Stored.name := "Camp2"; Stored.data := "FHE-e30=";
     Stored.timestamp := 1700000100; Stored.owner := "0xOwner";
     Stored.carbonFootprint := Some 0; Stored.status := Some processing;
     Stored.details := Some metrics_1_10_600_2 |}.

(** A campaign of ["0xOwner"] still to be computed, and the same once
    completed. *)
Definition record_Camp1 : Stored.t :=
  {| Stored.name := "Camp1";
     Stored.data :=
       "FHE-eyJuYW1lIjoiQ2FtcDEiLCJzZXJ2ZXJzIjoyLCJiYW5kd2lkdGgiOjEwLCJpbXByZXNzaW9ucyI6MTAwMCwiZHVyYXRpb24iOjV9";
     Stored.timestamp := 1700000000; Stored.owner := "0xOwner";
     Stored.carbonFootprint := Some 0; Stored.status := Some processing;
     Stored.details := Some metrics_2_10_1000_5 |}.

Definition record_Camp1_done : Stored.t := updated record_Camp1 (Some 3).

Definition ledger_of (i : string) (c : bytes Stored.t) : Ledger :=
  {| index := Json [i]; records := <[i := c]> ∅ |}.

(** A loaded campaign named [n] with footprint [f], completed at time [t]. *)
Definition done (n : string) (t f : Z) : CampaignData :=
  {| id := n; name := n; encryptedData := "FHE-e30="; timestamp := t;
     owner := "0xOwner"; carbonFootprint := f; status := completed;
     details := Some metrics_2_10_1000_5 |}.

(** Six completed campaigns, newest first; the oldest has the largest
    footprint. *)
Definition six_done : list CampaignData :=
  [done "f" 600 1; done "e" 500 1; done "d" 400 1; done "c" 300 1;
   done "b" 200 1; done "a" 100 10].

(** The form of the submit scenario, and the values of the environment. *)
Definition form_Camp1 : Form.t :=
  {| Form.name := "Camp1"; Form.servers := 2%float; Form.bandwidth := 10%float;
     Form.impressions := 1000%float; Form.duration := 5%float |}.

Definition session_Camp1 : App :=
  {| account := "0xOwner"; provider := true; loading := false; campaigns := [];
     isRefreshing := false; creating := false; transactionStatus := idle;
     newCampaignData := form_Camp1; searchTerm := ""; currentPage := 1 |}.

Definition ambient : Ambient :=
  {| now_id := 1700000000123; now_timestamp := 1700000000125;
     random36 := "k3j9x2a"; invalid_character := "Invalid character" |}.



(** Three records, the first and the last of the same timestamp. *)
Definition stamped (n : string) (t : Z) : Stored.t :=
  {| Stored.name := n; Stored.data := "FHE-e30="; Stored.timestamp := t;
     Stored.owner := "0xOwner"; Stored.carbonFootprint := None;
     Stored.status := None; Stored.details := None |}.

Definition ledger_pqr : Ledger :=
  {| index := Json ["p"; "q"; "r"];
     records :=
       <["p" := Json (stamped "P" 100)]>
         (<["q" := Json (stamped "Q" 200)]>
            (<["r" := Json (stamped "R" 100)]> ∅)) |}.

(** * The rest of the component *)

(** ** More state setters *)

Definition setAccount (s : string) : M unit :=
  modify (with_app (fun a =>
    {| account := s; provider := provider a; loading := loading a;
       campaigns := campaigns a; isRefreshing := isRefreshing a;
       creating := creating a; transactionStatus := transactionStatus a;
       newCampaignData := newCampaignData a; searchTerm := searchTerm a;
       currentPage := currentPage a |})).

Definition setProvider (p : bool) : M unit :=
  modify (with_app (fun a =>
    {| account := account a; provider := p; loading := loading a;
       campaigns := campaigns a; isRefreshing := isRefreshing a;
       creating := creating a; transactionStatus := transactionStatus a;
       newCampaignData := newCampaignData a; searchTerm := searchTerm a;
       currentPage := currentPage a |})).

(** The search box: [onChange={(e) => setSearchTerm(e.target.value)}]. *)
Definition setSearchTerm (s : string) : M unit :=
  modify (with_app (fun a =>
    {| account := account a; provider := provider a; loading := loading a;
       campaigns := campaigns a; isRefreshing := isRefreshing a;
       creating := creating a; transactionStatus := transactionStatus a;
       newCampaignData := newCampaignData a; searchTerm := s;
       currentPage := currentPage a |})).

(** ** The wallet *)

(** The wallet handed to [onWalletSelect]: whether it carries a [provider],
    whether [new ethers.BrowserProvider(wallet.provider)] accepts it (it
    throws otherwise), the answer to [send("eth_requestAccounts", [])], and
    whether [wallet.provider.on("accountsChanged", ..)] returns (it throws
    otherwise, as when the provider has no [on]). *)
Record Wallet := {
  injected : bool;
  accepted : bool;
  accounts : reply (list string);
  listens : bool;
}.

(** [accounts[0] || ""]. *)
Definition first_account (l : list string) : string := default "" (head l).

Definition eth_requestAccounts (wallet : Wallet) : M (list string) :=
  fun w =>
    match accounts wallet with
    | Reply l => (Normal l, w)
    | Reject e => (Throw e, w)
    end.

Definition onWalletSelect (wallet : Wallet) : M unit :=
  if negb (injected wallet) then ret tt
  else
    try_catch
      ((if accepted wallet then ret tt
        else throw "invalid EIP-1193 provider") ;;;
       setProvider true ;;;
       accounts <- eth_requestAccounts wallet ;;
       let acc := first_account accounts in
       setAccount acc ;;;
       (if listens wallet then ret tt
        else throw "wallet.provider.on is not a function"))
      (fun _ => alert "Failed to connect wallet").

(** The listener registered on ["accountsChanged"]. *)
Definition accountsChanged (accounts : list string) : M unit :=
  let newAcc := first_account accounts in
  setAccount newAcc.

Definition onDisconnect : M unit :=
  setAccount "" ;;; setProvider false.

(** ** [checkAvailability] *)

Definition checkAvailability : M unit :=
  try_catch
    (contract <- getContractReadOnly ;;
     if negb contract then ret tt
     else
       isAvailable <- isAvailable ;;
       setTransactionStatus
         {| Tx.visible := true; Tx.status := Tx.success;
            Tx.message :=
              "FHE system is "
              +:+ (if isAvailable then "available" else "unavailable") |})
    (fun e =>
       setTransactionStatus
         {| Tx.visible := true; Tx.status := Tx.error;
            Tx.message := "Availability check failed: " +:+ or_unknown e |}).

(** ** [ModalCreate] *)

(** A call of an [async] function that is not awaited: it runs, and the
    promise is dropped, a rejection with it. *)
Definition detached {A} (m : M A) : M unit :=
  fun w => (Normal tt, (m w).2).

(** [handleSubmit]: [campaignData] is the state [newCampaignData] and
    [onSubmit] is [submitCampaign], called without [await]. *)
Definition handleSubmit (env : Ambient) : M unit :=
  fun w =>
    let campaignData := newCampaignData (app w) in
    (if bool_decide (Form.name campaignData = "")
        || (Form.servers campaignData <=? 0)%float
     then alert "Please fill required fields"
     else detached (submitCampaign env)) w.

(** ** The row of a campaign *)

(** The "Details" button: [campaign.status === "completed"]. *)
Definition offersDetails (campaign : CampaignData) : bool :=
  bool_decide (status campaign = completed).

(** * More vocabulary *)

(** The load gets as far as the records: the contract is obtained, reports
    that it is available, and answers the read of the index. *)
Definition reaches (t : Transport) : bool :=
  match readOnly t, available t, readFault t campaign_keys with
  | Contract, Reply true, None => true
  | _, _, _ => false
  end.

(** The state [a] once a load has ended showing [shown]. *)
Definition refreshed (a : App) (shown : list CampaignData) : App :=
  {| account := account a; provider := provider a; loading := false;
     campaigns := shown; isRefreshing := false; creating := creating a;
     transactionStatus := transactionStatus a;
     newCampaignData := newCampaignData a; searchTerm := searchTerm a;
     currentPage := currentPage a |}.

(** What a load that reaches the records shows. *)
Definition listing (t : Transport) (l : Ledger) : list CampaignData :=
  Array_sort newest_first (omap (fetched t l) (index_ids l)).

(** The id [submitCampaign] makes, and the record it builds in state [a]
    around the text [encryptedData]. *)
Definition new_id (env : Ambient) : string :=
  pretty (now_id env) +:+ "-" +:+ random36 env.






(** ** More concrete inputs *)



Definition unavailable : Transport :=
  {| readOnly := Contract; withSigner := Contract; available := Reply false;
     readFault := fun _ => None; writeFault := fun _ => None |}.


(** The user declines every transaction in the wallet. *)
Definition declining : Transport :=
  {| readOnly := Contract; withSigner := Contract; available := Reply true;
     readFault := fun _ => None;
     writeFault := fun _ => Some (Error "user rejected transaction") |}.

(** The record write is refused with a value that has no message. *)
Definition mute : Transport :=
  {| readOnly := Contract; withSigner := Contract; available := Reply true;
     readFault := fun _ => None;
     writeFault := fun _ => Some Bare |}.

(** [btoa(JSON.stringify(form_Camp1))]. *)
Definition payload_Camp1 : string :=
  "eyJuYW1lIjoiQ2FtcDEiLCJzZXJ2ZXJzIjoyLCJiYW5kd2lkdGgiOjEwLCJpbXByZXNzaW9ucyI6MTAwMCwiZHVyYXRpb24iOjV9".

(** Two campaigns with the letter e with an acute accent in their names, in
    upper and in lower case. *)
Definition two_cafes : list CampaignData :=
  [done "CAFÉ DU NORD" 200 1; done "Thé vert" 100 1].

(** A session whose form asks for infinitely many servers. *)
Definition session_infinite : App :=
  {| account := "0xOwner"; provider := true; loading := false; campaigns := [];
     isRefreshing := false; creating := false; transactionStatus := idle;
     newCampaignData :=
       {| Form.name := "Camp1"; Form.servers := infinity;
          Form.bandwidth := 10%float; Form.impressions := 1000%float;
          Form.duration := 5%float |};
     searchTerm := ""; currentPage := 1 |}.

(** Completed campaigns whose footprint is 0. *)
Definition two_zero : list CampaignData := [done "b" 200 0; done "a" 100 0].

(** * The contract [AdCarbonFHE]

    The Solidity contract of the repository.  A transaction either succeeds
    with a new storage, or reverts and leaves the storage as it was.  The
    unsigned integers of the contract are integers ([Z]) within their range;
    the one checked addition that can overflow reverts with a panic.  A
    mapping is a finite map, read with the zero value of its type at the
    keys never written. *)

Module AdCarbonFHE.

(** What the contract imports: the encrypted integers of the FHE library and
    the operations on them, and the ABI decoder.  The contract is read for
    any such library. *)
Class Imports := {
  euint32 : Type;
  euint64 : Type;
  bytes32 : Type;
  bytes : Type;
  (** the value of a storage slot never written *)
  unset32 : euint32;
  unset64 : euint64;
  asEuint32 : Z -> euint32;
  asEuint64 : Z -> euint64;
  mul : euint64 -> euint64 -> euint64;
  add : euint64 -> euint64 -> euint64;
  isInitialized : euint64 -> bool;
  toBytes32_32 : euint32 -> bytes32;
  toBytes32_64 : euint64 -> bytes32;
  (** [abi.decode(cleartexts, (uint32[]))] and
      [abi.decode(cleartexts, (uint64))]; [None] when the decoder reverts *)
  decode_uint32s : bytes -> option (list Z);
  decode_uint64 : bytes -> option Z;
}.

(** [struct EncryptedAdCampaign]. *)
Module Campaign.
Record t `{Imports} := {
  id : Z;
  encryptedImpressions : euint32;
  encryptedClicks : euint32;
  encryptedDataTransfer : euint64;
  encryptedServerEnergy : euint64;
  timestamp : Z;
  advertiser : Z;
}.

Definition zero `{Imports} : t :=
  {| id := 0; encryptedImpressions := unset32; encryptedClicks := unset32;
     encryptedDataTransfer := unset64; encryptedServerEnergy := unset64;
     timestamp := 0; advertiser := 0 |}.
End Campaign.

(** [struct CarbonFootprint]. *)
Module Footprint.
Record t `{Imports} := {
  encryptedCO2 : euint64;
  isRevealed : bool;
  timestamp : Z;
}.

Definition zero `{Imports} : t :=
  {| encryptedCO2 := unset64; isRevealed := false; timestamp := 0 |}.
End Footprint.

Inductive Event :=
| CampaignSubmitted (id advertiser timestamp : Z)
| FootprintCalculationRequested (campaignId : Z)
| FootprintRevealed (campaignId co2Amount : Z).

(** The callback named in a decryption request. *)
Inductive Selector := calculateFootprint_selector | finalizeReveal_selector.

(** The storage of the contract, the events it has emitted and the
    decryption requests it has handed to the library. *)
Record State `{Imports} := {
  campaignCount : Z;
  encryptedCampaigns : gmap Z Campaign.t;
  carbonFootprints : gmap Z Footprint.t;
  requestToCampaignId : gmap Z Z;
  events : list Event;
  decryptions : list (list bytes32 * Selector);
}.

(** The storage at deployment. *)
Definition deployed `{Imports} : State :=
  {| campaignCount := 0; encryptedCampaigns := ∅; carbonFootprints := ∅;
     requestToCampaignId := ∅; events := []; decryptions := [] |}.

(** What a transaction finds around it: [msg.sender], [block.timestamp], the
    id that [FHE.requestDecryption] hands out in it and whether
    [FHE.checkSignatures] accepts. *)
Record Tx := {
  sender : Z;
  block_timestamp : Z;
  requestDecryption : Z;
  checkSignatures : bool;
}.

(** The end of a call: success, a failed [require] with its reason, a panic
    with its code, or a revert inside an imported function. *)
Inductive result (A : Type) :=
| Ok (a : A)
| Revert (reason : string)
| Panic (code : Z)
| Abort.
Arguments Ok {A}.
Arguments Revert {A}.
Arguments Panic {A}.
Arguments Abort {A}.

Definition max_uint256 : Z := 2 ^ 256 - 1.

Section contract.
Context `{Imports}.

Definition campaign_at (s : State) (campaignId : Z) : Campaign.t :=
  default Campaign.zero (encryptedCampaigns s !! campaignId).

Definition footprint_at (s : State) (campaignId : Z) : Footprint.t :=
  default Footprint.zero (carbonFootprints s !! campaignId).

Definition request_at (s : State) (requestId : Z) : Z :=
  default 0 (requestToCampaignId s !! requestId).

Definition onlyAdvertiser (tx : Tx) (s : State) (campaignId : Z)
    (body : result State) : result State :=
  if bool_decide (Campaign.advertiser (campaign_at s campaignId) = sender tx)
  then body
  else Revert "Not campaign owner".

Definition submitEncryptedCampaign (tx : Tx)
    (impressions clicks : euint32) (dataTransfer serverEnergy : euint64)
    (s : State) : result State :=
  if bool_decide (campaignCount s + 1 <= max_uint256) then
    let newId := campaignCount s + 1 in
    Ok {| campaignCount := newId;
          encryptedCampaigns :=
            <[newId := {| Campaign.id := newId;
                          Campaign.encryptedImpressions := impressions;
                          Campaign.encryptedClicks := clicks;
                          Campaign.encryptedDataTransfer := dataTransfer;
                          Campaign.encryptedServerEnergy := serverEnergy;
                          Campaign.timestamp := block_timestamp tx;
                          Campaign.advertiser := sender tx |}]>
              (encryptedCampaigns s);
          carbonFootprints :=
            <[newId := {| Footprint.encryptedCO2 := asEuint64 0;
                          Footprint.isRevealed := false;
                          Footprint.timestamp := 0 |}]>
              (carbonFootprints s);
          requestToCampaignId := requestToCampaignId s;
          events :=
            events s ++ [CampaignSubmitted newId (sender tx) (block_timestamp tx)];
          decryptions := decryptions s |}
  else Panic 17.

Definition requestCarbonFootprint (tx : Tx) (campaignId : Z) (s : State)
    : result State :=
  onlyAdvertiser tx s campaignId
    (let campaign := campaign_at s campaignId in
     if Footprint.isRevealed (footprint_at s campaignId)
     then Revert "Already calculated"
     else
       let ciphertexts :=
         [toBytes32_32 (Campaign.encryptedImpressions campaign);
          toBytes32_32 (Campaign.encryptedClicks campaign);
          toBytes32_64 (Campaign.encryptedDataTransfer campaign);
          toBytes32_64 (Campaign.encryptedServerEnergy campaign)] in
       let reqId := requestDecryption tx in
       Ok {| campaignCount := campaignCount s;
             encryptedCampaigns := encryptedCampaigns s;
             carbonFootprints := carbonFootprints s;
             requestToCampaignId := <[reqId := campaignId]> (requestToCampaignId s);
             events := events s ++ [FootprintCalculationRequested campaignId];
             decryptions :=
               decryptions s ++ [(ciphertexts, calculateFootprint_selector)] |}).

Definition calculateEncryptedCO2 (impressions clicks : euint32)
    (dataTransfer serverEnergy : euint64) : euint64 :=
  let dataFactor := asEuint64 2 in
  let energyFactor := asEuint64 500 in
  let dataCO2 := mul dataTransfer dataFactor in
  let energyCO2 := mul serverEnergy energyFactor in
  add dataCO2 energyCO2.

(** [results[k]]: an index past the end panics with code 0x32. *)
Definition at_index (results : list Z) (k : nat) : result Z :=
  match results !! k with
  | Some x => Ok x
  | None => Panic 50
  end.

Definition with_encryptedCO2 (f : Footprint.t) (c : euint64) : Footprint.t :=
  {| Footprint.encryptedCO2 := c;
     Footprint.isRevealed := Footprint.isRevealed f;
     Footprint.timestamp := Footprint.timestamp f |}.

Definition calculateFootprint (tx : Tx) (requestId : Z)
    (cleartexts proof : bytes) (s : State) : result State :=
  let campaignId := request_at s requestId in
  if bool_decide (campaignId = 0) then Revert "Invalid request"
  else if negb (checkSignatures tx) then Abort
  else
    match decode_uint32s cleartexts with
    | None => Abort
    | Some results =>
        match at_index results 0 with
        | Ok impressions =>
        match at_index results 1 with
        | Ok clicks =>
        match at_index results 2 with
        | Ok dataTransfer =>
        match at_index results 3 with
        | Ok serverEnergy =>
            let encryptedCO2 :=
              calculateEncryptedCO2
                (asEuint32 impressions) (asEuint32 clicks)
                (asEuint64 dataTransfer) (asEuint64 serverEnergy) in
            Ok {| campaignCount := campaignCount s;
                  encryptedCampaigns := encryptedCampaigns s;
                  carbonFootprints :=
                    <[campaignId :=
                        with_encryptedCO2 (footprint_at s campaignId) encryptedCO2]>
                      (carbonFootprints s);
                  requestToCampaignId := requestToCampaignId s;
                  events := events s;
                  decryptions := decryptions s |}
        | Revert r => Revert r | Panic c => Panic c | Abort => Abort
        end
        | Revert r => Revert r | Panic c => Panic c | Abort => Abort
        end
        | Revert r => Revert r | Panic c => Panic c | Abort => Abort
        end
        | Revert r => Revert r | Panic c => Panic c | Abort => Abort
        end
    end.

Definition revealCarbonFootprint (tx : Tx) (campaignId : Z) (s : State)
    : result State :=
  onlyAdvertiser tx s campaignId
    (let footprint := footprint_at s campaignId in
     if Footprint.isRevealed footprint then Revert "Already revealed"
     else if negb (isInitialized (Footprint.encryptedCO2 footprint))
     then Revert "Not calculated yet"
     else
       let ciphertexts := [toBytes32_64 (Footprint.encryptedCO2 footprint)] in
       let reqId := requestDecryption tx in
       Ok {| campaignCount := campaignCount s;
             encryptedCampaigns := encryptedCampaigns s;
             carbonFootprints := carbonFootprints s;
             requestToCampaignId := <[reqId := campaignId]> (requestToCampaignId s);
             events := events s;
             decryptions :=
               decryptions s ++ [(ciphertexts, finalizeReveal_selector)] |}).

Definition finalizeReveal (tx : Tx) (requestId : Z)
    (cleartexts proof : bytes) (s : State) : result State :=
  let campaignId := request_at s requestId in
  if bool_decide (campaignId = 0) then Revert "Invalid request"
  else
    let footprint := footprint_at s campaignId in
    if negb (checkSignatures tx) then Abort
    else
      match decode_uint64 cleartexts with
      | None => Abort
      | Some co2Amount =>
          Ok {| campaignCount := campaignCount s;
                encryptedCampaigns := encryptedCampaigns s;
                carbonFootprints :=
                  <[campaignId :=
                      {| Footprint.encryptedCO2 := Footprint.encryptedCO2 footprint;
                         Footprint.isRevealed := true;
                         Footprint.timestamp := block_timestamp tx |}]>
                    (carbonFootprints s);
                requestToCampaignId := requestToCampaignId s;
                events := events s ++ [FootprintRevealed campaignId co2Amount];
                decryptions := decryptions s |}
      end.

(** [getCampaign]: a view. *)
Definition getCampaign (campaignId : Z) (s : State) : Z * Z * bool * bool :=
  let c := campaign_at s campaignId in
  let f := footprint_at s campaignId in
  (Campaign.advertiser c, Campaign.timestamp c,
   isInitialized (Footprint.encryptedCO2 f), Footprint.isRevealed f).

(** ** Transactions *)

(** A call of one of the public functions that write. *)
Inductive Call :=
| SubmitEncryptedCampaign (impressions clicks : euint32)
    (dataTransfer serverEnergy : euint64)
| RequestCarbonFootprint (campaignId : Z)
| CalculateFootprint (requestId : Z) (cleartexts proof : bytes)
| RevealCarbonFootprint (campaignId : Z)
| FinalizeReveal (requestId : Z) (cleartexts proof : bytes).

Definition call (tx : Tx) (c : Call) (s : State) : result State :=
  match c with
  | SubmitEncryptedCampaign i k d e => submitEncryptedCampaign tx i k d e s
  | RequestCarbonFootprint campaignId => requestCarbonFootprint tx campaignId s
  | CalculateFootprint r c p => calculateFootprint tx r c p s
  | RevealCarbonFootprint campaignId => revealCarbonFootprint tx campaignId s
  | FinalizeReveal r c p => finalizeReveal tx r c p s
  end.

(** The storage after a transaction: that of the call if it succeeds, the
    one before if it reverts. *)
Definition transact (s : State) (t : Tx * Call) : State :=
  match call t.1 t.2 s with
  | Ok s' => s'
  | _ => s
  end.

(** The storage after a sequence of transactions. *)
Definition history (txs : list (Tx * Call)) (s : State) : State :=
  foldl transact s txs.

End contract.

(** A library that keeps the values in the clear, for the examples: an
    encrypted integer is its value, or nothing in a slot never written. *)
Definition clear : Imports :=
  {| euint32 := option Z; euint64 := option Z;
     bytes32 := option Z; bytes := list Z;
     unset32 := None; unset64 := None;
     asEuint32 := Some; asEuint64 := Some;
     mul := fun a b => x ← a; y ← b; Some ((x * y) `mod` 2 ^ 64);
     add := fun a b => x ← a; y ← b; Some ((x + y) `mod` 2 ^ 64);
     isInitialized := fun a => bool_decide (is_Some a);
     toBytes32_32 := fun a => a; toBytes32_64 := fun a => a;
     decode_uint32s := Some;
     decode_uint64 := head |}.

(** Transactions of the advertiser 7 and of someone else, and the storage
    after the advertiser has submitted one campaign. *)
Definition advertiser_tx (now requestId : Z) : Tx :=
  {| sender := 7; block_timestamp := now; requestDecryption := requestId;
     checkSignatures := true |}.

Definition stranger_tx (now : Z) : Tx :=
  {| sender := 9; block_timestamp := now; requestDecryption := 0;
     checkSignatures := true |}.

Definition one_campaign : @State clear :=
  @history clear
    [(advertiser_tx 1000 0,
      @SubmitEncryptedCampaign clear (Some 5000) (Some 40) (Some 300) (Some 12))]
    (@deployed clear).

End AdCarbonFHE.
(** * Properties *)

(** ** What a read-only computation leaves alone *)

Lemma no_call (cs : list Call) : exists cs', cs = cs ++ cs' /\ quiet cs'.
Proof. exists []. split; [by rewrite app_nil_r | constructor]. Qed.

Lemma frame_refl w : frame w w.
Proof. split; try reflexivity. apply no_call. Qed.

Lemma frame_trans w1 w2 w3 : frame w1 w2 -> frame w2 w3 -> frame w1 w3.
Proof.
  intros [L1 N1 (cs1 & C1 & Q1) A1 B1 P1 R1 S1 G1]
         [L2 N2 (cs2 & C2 & Q2) A2 B2 P2 R2 S2 G2].
  split; try congruence.
  exists (cs1 ++ cs2). split.
  - rewrite C2, C1. by rewrite app_assoc.
  - by apply Forall_app.
Qed.

Lemma framed_ret {A} (a : A) : framed (ret a).
Proof. intros w. apply frame_refl. Qed.

Lemma framed_throw {A} e : framed (@throw A e).
Proof. intros w. apply frame_refl. Qed.

Lemma framed_bind {A B} (m : M A) (k : A -> M B) :
  framed m -> (forall a, framed (k a)) -> framed (bind m k).
Proof.
  intros Hm Hk w. unfold bind. specialize (Hm w).
  destruct (m w) as [[a | e] w']; simpl in *; [| done].
  eapply frame_trans; [exact Hm | apply Hk].
Qed.

Lemma framed_try_catch {A} (body : M A) handler :
  framed body -> (forall e, framed (handler e)) -> framed (try_catch body handler).
Proof.
  intros Hb Hh w. unfold try_catch. specialize (Hb w).
  destruct (body w) as [[a | e] w']; simpl in *; [done |].
  eapply frame_trans; [exact Hb | apply Hh].
Qed.

Lemma framed_try_finally {A} (body : M A) cleanup :
  framed body -> framed cleanup -> framed (try_finally body cleanup).
Proof.
  intros Hb Hc w. unfold try_finally. specialize (Hb w).
  destruct (body w) as [r w']. specialize (Hc w').
  destruct (cleanup w') as [[[] | e] w'']; simpl in *;
    eapply frame_trans; eauto.
Qed.

Lemma framed_console_error s : framed (console_error s).
Proof. intros w. split; try reflexivity. apply no_call. Qed.

Lemma framed_setCampaigns l : framed (setCampaigns l).
Proof. intros w. split; try reflexivity. apply no_call. Qed.

Lemma framed_setLoading b : framed (setLoading b).
Proof. intros w. split; try reflexivity. apply no_call. Qed.

Lemma framed_setIsRefreshing b : framed (setIsRefreshing b).
Proof. intros w. split; try reflexivity. apply no_call. Qed.

Lemma framed_called c : is_write c = false -> framed (called c).
Proof.
  intros Hc w. split; try reflexivity.
  exists [c]. split; [done | by constructor].
Qed.

Lemma framed_getContractReadOnly : framed getContractReadOnly.
Proof.
  intros w. unfold getContractReadOnly.
  destruct (readOnly (net w)); apply frame_refl.
Qed.

Lemma framed_isAvailable : framed isAvailable.
Proof.
  apply framed_bind; [by apply framed_called |].
  intros _ w. destruct (available (net w)); apply frame_refl.
Qed.

Lemma framed_answer {A} k (read : Ledger -> A) : framed (answer k read).
Proof.
  intros w. unfold answer. destruct (readFault (net w) k); apply frame_refl.
Qed.

Lemma framed_getData_keys : framed getData_keys.
Proof.
  apply framed_bind; [by apply framed_called | intros _; apply framed_answer].
Qed.

Lemma framed_getData_campaign i : framed (getData_campaign i).
Proof.
  apply framed_bind; [by apply framed_called | intros _; apply framed_answer].
Qed.

Lemma framed_JSON_parse {A} (b : bytes A) : framed (JSON_parse b).
Proof. destruct b; (apply framed_ret || apply framed_throw). Qed.

Lemma framed_parse_keys s b : framed (parse_keys s b).
Proof.
  unfold parse_keys. destruct (nonempty b); [| apply framed_ret].
  apply framed_try_catch; [apply framed_JSON_parse |].
  intros _. apply framed_bind; [apply framed_console_error |].
  intros _. apply framed_ret.
Qed.

Lemma framed_loadCampaign lst k : framed (loadCampaign lst k).
Proof.
  unfold loadCampaign. apply framed_try_catch.
  - apply framed_bind; [apply framed_getData_campaign |].
    intros b. destruct (nonempty b); [| apply framed_ret].
    apply framed_try_catch.
    + apply framed_bind; [apply framed_JSON_parse | intros; apply framed_ret].
    + intros _. apply framed_bind; [apply framed_console_error |].
      intros _. apply framed_ret.
  - intros _. apply framed_bind; [apply framed_console_error |].
    intros _. apply framed_ret.
Qed.

Lemma framed_for_of {A B} (xs : list A) (body : B -> A -> M B) acc :
  (forall b x, framed (body b x)) -> framed (for_of xs body acc).
Proof.
  intros Hb. revert acc. induction xs as [| x xs IH]; intros acc; simpl.
  - apply framed_ret.
  - apply framed_bind; [apply Hb | intros; apply IH].
Qed.

Lemma framed_loadCampaigns : framed loadCampaigns.
Proof.
  unfold loadCampaigns.
  apply framed_bind; [apply framed_setIsRefreshing | intros _].
  apply framed_try_finally.
  - apply framed_try_catch; [| intros; apply framed_console_error].
    apply framed_bind; [apply framed_getContractReadOnly | intros c].
    destruct c; simpl; [| apply framed_ret].
    apply framed_bind; [apply framed_isAvailable | intros b].
    destruct b; simpl; [| apply framed_console_error].
    apply framed_bind; [apply framed_getData_keys | intros kb].
    apply framed_bind; [apply framed_parse_keys | intros ks].
    apply framed_bind; [| intros; apply framed_setCampaigns].
    apply framed_for_of. intros; apply framed_loadCampaign.
  - apply framed_bind; [apply framed_setIsRefreshing |].
    intros _. apply framed_setLoading.
Qed.

Lemma normal_try_catch (body : M unit) handler :
  (forall e w, (handler e w).1 = Normal tt) ->
  forall w, (try_catch body handler w).1 = Normal tt.
Proof.
  intros H w. unfold try_catch.
  destruct (body w) as [[[] | e] w']; [done | apply H].
Qed.

(** [loadCampaigns] catches whatever is thrown inside it. *)
Lemma loadCampaigns_normal w : (loadCampaigns w).1 = Normal tt.
Proof.
  unfold loadCampaigns.
  set (body := try_catch _ _).
  assert (Hb : forall w, (body w).1 = Normal tt)
    by (apply normal_try_catch; done).
  unfold bind, try_finally, setIsRefreshing, setLoading, modify; simpl.
  match goal with |- context [body ?x] => specialize (Hb x); destruct (body x) end.
  simpl in *. by subst.
Qed.

(** ** What [loadCampaigns] puts in [campaigns] *)

(** Runs the primitive steps of a computation. *)
Ltac run :=
  cbv beta iota zeta delta
    [bind ret throw try_catch try_finally modify called answer store
     console_error alert getData_keys getData_campaign setData_keys
     setData_campaign getContractReadOnly getContractWithSigner isAvailable
     JSON_parse read_details nonempty
     setCampaigns setLoading setIsRefreshing setCreating
     setTransactionStatus setCurrentPage];
  simpl.

Lemma parse_keys_run label b w :
  exists w',
    parse_keys label b w
    = (Normal (match b with Json keys => keys | _ => [] end), w')
    /\ ledger w' = ledger w /\ net w' = net w /\ app w' = app w
    /\ calls w' = calls w.
Proof. unfold parse_keys. destruct b; run; eauto 10. Qed.

Ltac run_parse_keys w1 :=
  let E := fresh "E" in
  let L := fresh "L" in
  let N := fresh "N" in
  let A := fresh "A" in
  let C := fresh "C" in
  match goal with
  | |- context [parse_keys ?l ?b ?x] =>
      destruct (parse_keys_run l b x) as (w1 & E & L & N & A & C);
      rewrite E; simpl in L, N, A, C |- *
  end.

Lemma loadCampaign_result lst k w :
  exists w',
    loadCampaign lst k w
    = (Normal (lst ++ option_list (fetched (net w) (ledger w) k)), w')
    /\ app w' = app w.
Proof.
  unfold loadCampaign, fetched, parsed. run.
  destruct (readFault (net w) (campaign_ k)); simpl.
  { eexists; split; [by rewrite app_nil_r | done]. }
  destruct (record_of (ledger w) k); simpl;
    eexists; (split; [by rewrite ?app_nil_r | done]).
Qed.

Lemma for_of_loadCampaign keys : forall lst w,
  exists w',
    for_of keys loadCampaign lst w
    = (Normal (lst ++ omap (fetched (net w) (ledger w)) keys), w')
    /\ app w' = app w.
Proof.
  induction keys as [| k keys IH]; intros lst w; simpl.
  - exists w. by rewrite app_nil_r.
  - unfold bind.
    destruct (loadCampaign_result lst k w) as (w1 & E1 & A1).
    pose proof (framed_loadCampaign lst k w) as F. rewrite E1 in *. simpl in F.
    destruct (IH (lst ++ option_list (fetched (net w) (ledger w) k)) w1)
      as (w2 & E2 & A2).
    exists w2. rewrite E2, (frame_ledger _ _ F), (frame_net _ _ F).
    split; [| congruence].
    f_equal. f_equal. rewrite <- app_assoc. f_equal.
    by destruct (fetched (net w) (ledger w) k).
Qed.

Lemma loadCampaigns_loads w :
  readOnly (net w) = Contract ->
  available (net w) = Reply true ->
  readFault (net w) campaign_keys = None ->
  campaigns (app (loadCampaigns w).2)
  = Array_sort newest_first
      (omap (fetched (net w) (ledger w)) (index_ids (ledger w))).
Proof.
  intros H1 H2 H3.
  unfold loadCampaigns, index_ids. run.
  rewrite H1; simpl. rewrite H2; simpl. rewrite H3; simpl.
  run_parse_keys w1.
  match goal with
  | |- context [for_of ?keys loadCampaign [] w1] =>
      destruct (for_of_loadCampaign keys [] w1) as (w2 & E2 & A2); rewrite E2
  end.
  simpl. by rewrite L, N.
Qed.

(** What a load writes on the console. *)
Lemma parse_keys_console label b w :
  console (parse_keys label b w).2
  = console w ++ match b with Garbled => [label] | _ => [] end.
Proof. unfold parse_keys. destruct b; run; by rewrite ?app_nil_r. Qed.

Lemma loadCampaign_console lst k w :
  console (loadCampaign lst k w).2 = console w ++ logged (net w) (ledger w) k.
Proof.
  unfold loadCampaign, logged. run.
  destruct (readFault (net w) (campaign_ k)); simpl; [done |].
  destruct (record_of (ledger w) k); simpl; by rewrite ?app_nil_r.
Qed.

Lemma for_of_loadCampaign_console keys : forall lst w,
  console (for_of keys loadCampaign lst w).2
  = console w ++ concat (map (logged (net w) (ledger w)) keys).
Proof.
  induction keys as [| k keys IH]; intros lst w; simpl.
  - by rewrite app_nil_r.
  - unfold bind.
    destruct (loadCampaign_result lst k w) as (w1 & E1 & _).
    pose proof (loadCampaign_console lst k w) as C.
    pose proof (framed_loadCampaign lst k w) as F.
    rewrite E1 in *. simpl in C, F.
    rewrite IH, C, (frame_ledger _ _ F), (frame_net _ _ F).
    by rewrite <- app_assoc.
Qed.

Lemma loadCampaigns_console w :
  readOnly (net w) = Contract ->
  available (net w) = Reply true ->
  readFault (net w) campaign_keys = None ->
  console (loadCampaigns w).2
  = console w ++ index_logged (ledger w)
    ++ concat (map (logged (net w) (ledger w)) (index_ids (ledger w))).
Proof.
  intros H1 H2 H3.
  unfold loadCampaigns, index_ids, index_logged. run.
  rewrite H1; simpl. rewrite H2; simpl. rewrite H3; simpl.
  match goal with
  | |- context [parse_keys ?l ?b ?x] =>
      pose proof (parse_keys_console l b x) as K;
      destruct (parse_keys_run l b x) as (w1 & E & L & N & A & C);
      rewrite E in *; simpl in L, N, A, C, K |- *
  end.
  match goal with
  | |- context [for_of ?keys loadCampaign [] w1] =>
      pose proof (for_of_loadCampaign_console keys [] w1) as Hc;
      destruct (for_of_loadCampaign keys [] w1) as (w2 & E2 & _);
      rewrite E2 in *
  end.
  simpl in *. by rewrite Hc, K, L, N, <- app_assoc.
Qed.

(** ** [Array.prototype.sort] *)

Section sort.
Context {A : Type} (compare : A -> A -> Z).

Lemma insert_perm x l : insert compare x l ≡ₚ x :: l.
Proof.
  induction l as [| y l IH]; simpl; [done |].
  case_decide; [done |]. rewrite IH. apply Permutation_swap.
Qed.

Lemma Array_sort_perm l : Array_sort compare l ≡ₚ l.
Proof.
  induction l as [| x l IH]; simpl; [done |].
  by rewrite insert_perm, IH.
Qed.

(** Inserting [x] does not change the order of the elements of a class [P]
    whose members compare as equal. *)
Lemma insert_stable (P : A -> Prop) `{forall x, Decision (P x)} x l :
  (forall a b, P a -> P b -> compare a b ≤ 0) ->
  filter P (insert compare x l) = filter P (x :: l).
Proof.
  intros Heq. induction l as [| y l IH]; simpl; [done |].
  case_decide as Hxy; [done |].
  rewrite filter_cons, IH, !filter_cons.
  destruct (decide (P y)) as [Py |], (decide (P x)) as [Px |]; try done.
  destruct Hxy. by apply Heq.
Qed.

Lemma Array_sort_stable (P : A -> Prop) `{forall x, Decision (P x)} l :
  (forall a b, P a -> P b -> compare a b ≤ 0) ->
  filter P (Array_sort compare l) = filter P l.
Proof.
  intros Heq. induction l as [| x l IH]; simpl; [done |].
  rewrite insert_stable by done. by rewrite !filter_cons, IH.
Qed.

Hypothesis compare_total :
  forall a b, ¬ compare a b ≤ 0 -> compare b a ≤ 0.
Hypothesis compare_trans :
  forall a b c, compare a b ≤ 0 -> compare b c ≤ 0 -> compare a c ≤ 0.

Lemma insert_sorted x l :
  StronglySorted (fun a b => compare a b ≤ 0) l ->
  StronglySorted (fun a b => compare a b ≤ 0) (insert compare x l).
Proof.
  induction 1 as [| y l Hl IH Hy]; simpl.
  - repeat constructor.
  - case_decide as Hxy.
    + constructor; [by constructor |].
      constructor; [done |].
      eapply Forall_impl; [exact Hy |]. intros z Hz; simpl in *. eauto.
    + constructor; [done |].
      rewrite insert_perm. constructor; [| done]. by apply compare_total.
Qed.

Lemma Array_sort_sorted l :
  StronglySorted (fun a b => compare a b ≤ 0) (Array_sort compare l).
Proof.
  induction l as [| x l IH]; simpl; [constructor | by apply insert_sorted].
Qed.
End sort.

Lemma newest_first_sorted l :
  StronglySorted (fun a b => timestamp b ≤ timestamp a)
    (Array_sort newest_first l).
Proof.
  assert (H : StronglySorted (fun a b => newest_first a b ≤ 0)
                (Array_sort newest_first l))
    by (apply Array_sort_sorted; unfold newest_first; intros; lia).
  induction H as [| x l' Hl IH Hx]; constructor; [done |].
  eapply Forall_impl; [exact Hx |]. unfold newest_first. intros y; simpl. lia.
Qed.

Lemma newest_first_stable t l :
  filter (fun c => timestamp c = t) (Array_sort newest_first l)
  = filter (fun c => timestamp c = t) l.
Proof.
  apply Array_sort_stable. unfold newest_first. intros a b Ha Hb. lia.
Qed.

(** ** The ledger reader *)

(** C3. With a transport that answers, [loadCampaigns] completes normally and
    sets [campaigns] to the records, sorted, of the ids of the index whose
    record blob is non-empty and parses: an index blob that is absent or does
    not parse counts as the empty index ([index_ids]), and an id whose blob is
    absent or does not parse is left out, the others being kept.  The row of
    a record has the id of the index and the name, data, timestamp, owner and
    details of the record, with footprint 0 and status "processing" where the
    record has none. *)
Theorem loadCampaigns_returns_parsed_records w :
  readable (net w) ->
  outcome loadCampaigns w = Normal tt
  /\ campaigns (app (after loadCampaigns w))
     = Array_sort newest_first (omap (parsed (ledger w)) (index_ids (ledger w)))
  /\ (forall i,
        match record_of (ledger w) i with
        | Json d =>
            parsed (ledger w) i
            = Some {| id := i;
                      name := Stored.name d;
                      encryptedData := Stored.data d;
                      timestamp := Stored.timestamp d;
                      owner := Stored.owner d;
                      carbonFootprint :=
                        match Stored.carbonFootprint d with
                        | Some z => z
                        | None => 0
                        end;
                      status :=
                        match Stored.status d with
                        | Some s => s
                        | None => processing
                        end;
                      details := Stored.details d |}
        | _ => parsed (ledger w) i = None
        end)
  /\ forall c,
       c ∈ campaigns (app (after loadCampaigns w))
       <-> exists i d,
             i ∈ index_ids (ledger w)
             /\ record_of (ledger w) i = Json d
             /\ c = {| id := i;
                       name := Stored.name d;
                       encryptedData := Stored.data d;
                       timestamp := Stored.timestamp d;
                       owner := Stored.owner d;
                       carbonFootprint :=
                         match Stored.carbonFootprint d with
                         | Some z => z
                         | None => 0
                         end;
                       status :=
                         match Stored.status d with
                         | Some s => s
                         | None => processing
                         end;
                       details := Stored.details d |}.
Proof.
  intros (H1 & H2 & H3).
  assert (E : campaigns (app (after loadCampaigns w))
              = Array_sort newest_first
                  (omap (parsed (ledger w)) (index_ids (ledger w)))).
  { unfold after. rewrite loadCampaigns_loads by done.
    f_equal. apply list_omap_ext, Forall2_same_length_lookup_2; [done |].
    intros n i j Hi Hj. simplify_eq. unfold fetched. by rewrite H3. }
  split; [apply loadCampaigns_normal |]. split; [exact E |].
  split.
  { intros i. unfold parsed. by destruct (record_of (ledger w) i). }
  intros c. rewrite E, Array_sort_perm, list_elem_of_omap.
  unfold parsed. split.
  - intros (i & Hi & Hc). destruct (record_of (ledger w) i) as [| | d] eqn:R;
      try done. exists i, d. by simplify_eq.
  - intros (i & d & Hi & R & ->). exists i. by rewrite R.
Qed.

Lemma loadCampaigns_returns_parsed_records_witness :
  readable (net (world ledger_ab live (session "0x1" [])))
  /\ campaigns (app (after loadCampaigns (world ledger_ab live (session "0x1" []))))
     = [{| id := "a"; name := "X"; encryptedData := "FHE-e30=";
           timestamp := 100; owner := "0x1"; carbonFootprint := 0;
           status := processing; details := None |}].
Proof.
  assert (H : readable (net (world ledger_ab live (session "0x1" []))))
    by (repeat split; reflexivity).
  split; [exact H |].
  destruct (loadCampaigns_returns_parsed_records _ H) as (_ & E & _).
  rewrite E. reflexivity.
Defined.

(** C4, as the program has it.  [loadCampaigns] never writes to the contract
    and never passes an error to its caller.  When the transport fails as a
    whole the error is caught, logged on the console, and [campaigns] is left
    as it was.  Otherwise a read of a record key that rejects only leaves
    that id out, and the console gets one line for an index blob that does
    not parse and, in the order of the index, one line for each id whose read
    rejects ("Error loading campaign" and the id) or whose blob does not
    parse ("Error parsing campaign data for" and the id), and nothing else. *)
Theorem loadCampaigns_reads_and_never_throws w :
  outcome loadCampaigns w = Normal tt
  /\ ledger (after loadCampaigns w) = ledger w
  /\ (exists cs, calls (after loadCampaigns w) = calls w ++ cs /\ quiet cs)
  /\ (unreachable (net w) = true ->
      campaigns (app (after loadCampaigns w)) = campaigns (app w)
      /\ console (after loadCampaigns w)
         = console w ++ ["Error loading campaigns:"])
  /\ (readOnly (net w) = Contract -> available (net w) = Reply true ->
      readFault (net w) campaign_keys = None ->
      campaigns (app (after loadCampaigns w))
      = Array_sort newest_first
          (omap (fetched (net w) (ledger w)) (index_ids (ledger w)))
      /\ console (after loadCampaigns w)
         = console w
           ++ match index (ledger w) with
              | Garbled => ["Error parsing campaign keys:"]
              | _ => []
              end
           ++ concat
                (map (fun i =>
                        match readFault (net w) (campaign_ i) with
                        | Some _ => ["Error loading campaign " +:+ i +:+ ":"]
                        | None =>
                            match record_of (ledger w) i with
                            | Garbled =>
                                ["Error parsing campaign data for " +:+ i +:+ ":"]
                            | _ => []
                            end
                        end)
                   (index_ids (ledger w)))).
Proof.
  pose proof (framed_loadCampaigns w) as F.
  split; [apply loadCampaigns_normal |].
  split; [apply F |]. split; [apply F |].
  split; [| intros H1 H2 H3; split;
              [by apply loadCampaigns_loads | by apply loadCampaigns_console]].
  unfold unreachable, after, loadCampaigns. run.
  destruct (readOnly (net w)); simpl; try done.
  destruct (available (net w)) as [[|] |]; simpl; try done.
  intros [e He]%bool_decide_eq_true_1. by rewrite He.
Qed.

Lemma loadCampaigns_reads_and_never_throws_witness :
  unreachable (net (world ledger_ab offline (session "0x1" [entry "a" record_X]))) = true
  /\ campaigns (app (after loadCampaigns
       (world ledger_ab offline (session "0x1" [entry "a" record_X]))))
     = [entry "a" record_X]
  /\ console (after loadCampaigns (world ledger_ab live (session "0x1" [])))
     = ["Error parsing campaign data for b:"].
Proof.
  split; [reflexivity |]. split.
  - destruct (loadCampaigns_reads_and_never_throws
                (world ledger_ab offline (session "0x1" [entry "a" record_X])))
      as (_ & _ & _ & H & _).
    destruct H as [H _]; [reflexivity | exact H].
  - destruct (loadCampaigns_reads_and_never_throws
                (world ledger_ab live (session "0x1" [])))
      as (_ & _ & _ & _ & H).
    destruct H as [_ H]; [reflexivity | reflexivity | reflexivity |].
    rewrite H. reflexivity.
Defined.

(** C4, as stated, fails: with the store unreachable the caller of
    [loadCampaigns] gets no error. *)
Lemma loadCampaigns_unreachable_not_raised :
  unreachable (net (world ledger_ab offline (session "0x1" []))) = true
  /\ ¬ exists e,
        outcome loadCampaigns (world ledger_ab offline (session "0x1" []))
        = Throw e.
Proof. split; [reflexivity |]. intros [e H]. vm_compute in H. discriminate. Qed.

(** C5. After a load, [campaigns] is in descending order of [timestamp], and
    the records of one timestamp are in the order of their ids in the index. *)
Theorem loadCampaigns_newest_first_stable w :
  readOnly (net w) = Contract ->
  available (net w) = Reply true ->
  readFault (net w) campaign_keys = None ->
  StronglySorted (fun a b => timestamp b ≤ timestamp a)
    (campaigns (app (after loadCampaigns w)))
  /\ forall t,
       filter (fun c => timestamp c = t) (campaigns (app (after loadCampaigns w)))
       = filter (fun c => timestamp c = t)
           (omap (fetched (net w) (ledger w)) (index_ids (ledger w))).
Proof.
  intros H1 H2 H3. unfold after. rewrite loadCampaigns_loads by done.
  split; [apply newest_first_sorted | intros t; apply newest_first_stable].
Qed.

Lemma loadCampaigns_newest_first_stable_witness :
  StronglySorted (fun a b => timestamp b ≤ timestamp a)
    (campaigns (app (after loadCampaigns (world ledger_pqr live (session "0x1" [])))))
  /\ map id (campaigns (app (after loadCampaigns
                (world ledger_pqr live (session "0x1" [])))))
     = ["q"; "p"; "r"].
Proof.
  split; [| reflexivity].
  by apply (loadCampaigns_newest_first_stable
              (world ledger_pqr live (session "0x1" []))).
Defined.


(** ** The compute transition *)

Lemma quiet_read k : quiet [GetData k].
Proof. by repeat constructor. Qed.

(** The run of [calculateCarbon] on a record that has its metrics. *)
Lemma calculateCarbon_run i w d m :
  provider (app w) = true ->
  withSigner (net w) = Contract ->
  readFault (net w) (campaign_ i) = None ->
  writeFault (net w) (campaign_ i) = None ->
  record_of (ledger w) i = Json d ->
  Stored.details d = Some m ->
  outcome (calculateCarbon i) w = Normal tt
  /\ ledger (after (calculateCarbon i) w)
     = {| index := index (ledger w);
          records := <[i := Json (updated d (carbon_of m))]> (records (ledger w)) |}
  /\ transactionStatus (app (after (calculateCarbon i) w))
     = {| Tx.visible := true; Tx.status := Tx.success;
          Tx.message := "Carbon footprint calculated successfully!" |}
  /\ exists cs,
       calls (after (calculateCarbon i) w)
       = calls w ++ [GetData (campaign_ i); SetData (campaign_ i)] ++ cs
       /\ quiet cs.
Proof.
  intros Hp Hs Hr Hw Hd Hm.
  unfold outcome, after, calculateCarbon. rewrite Hp. run.
  rewrite Hs; simpl. rewrite Hr; simpl. rewrite Hd; simpl.
  rewrite Hm; simpl. rewrite Hw; simpl.
  match goal with
  | |- context [loadCampaigns ?x] =>
      pose proof (loadCampaigns_normal x) as N;
      pose proof (framed_loadCampaigns x) as F;
      destruct (loadCampaigns x) as [r w']
  end.
  simpl in N, F. subst r. simpl.
  destruct F as [L _ (cs & C & Q) _ _ _ _ S _]. simpl in *.
  repeat split; try done.
  exists cs. split; [| done]. rewrite C. by rewrite <- !app_assoc.
Qed.

(** The runs of [calculateCarbon] that stop before the write. *)
Lemma calculateCarbon_stops i w :
  match record_of (ledger w) i with
  | Json d => Stored.details d = None
  | _ => True
  end ->
  ledger (after (calculateCarbon i) w) = ledger w
  /\ (exists cs, calls (after (calculateCarbon i) w) = calls w ++ cs /\ quiet cs)
  /\ (provider (app w) = true ->
      Tx.status (transactionStatus (app (after (calculateCarbon i) w))) = Tx.error).
Proof.
  intros H. unfold after, calculateCarbon.
  assert (forall k, exists cs, calls w ++ [GetData k] = calls w ++ cs /\ quiet cs)
    by (intros k; exists [GetData k]; auto using quiet_read).
  destruct (provider (app w)); run;
    [| by repeat split; auto using no_call].
  destruct (withSigner (net w)); simpl;
    try by (repeat split; auto using no_call).
  destruct (readFault (net w) (campaign_ i)); simpl;
    [by repeat split; auto |].
  destruct (record_of (ledger w) i) as [| | d]; simpl;
    try by (repeat split; auto).
  rewrite H; simpl. by repeat split; auto.
Qed.

(** C1, as the program has it.  [calculateCarbon] rejects an id without
    a record blob with "Campaign not found" and writes nothing.  It compares
    neither the caller with the owner nor the status with "completed": on a
    record that has its metrics it computes and writes, whoever calls and
    whatever the status.  Owner (letter case ignored) and status are checked
    by the view, which offers the action on the rows of the loaded list that
    belong to the account and are in "processing". *)
Theorem calculateCarbon_checks_presence_only i w :
  provider (app w) = true ->
  withSigner (net w) = Contract ->
  readFault (net w) (campaign_ i) = None ->
  (record_of (ledger w) i = Empty ->
   transactionStatus (app (after (calculateCarbon i) w))
   = {| Tx.visible := true; Tx.status := Tx.error;
        Tx.message := "Calculation failed: Campaign not found" |}
   /\ ledger (after (calculateCarbon i) w) = ledger w)
  /\ (forall d m,
        writeFault (net w) (campaign_ i) = None ->
        record_of (ledger w) i = Json d ->
        Stored.details d = Some m ->
        record_of (ledger (after (calculateCarbon i) w)) i
        = Json (updated d (carbon_of m))
        /\ Tx.status (transactionStatus (app (after (calculateCarbon i) w)))
           = Tx.success)
  /\ (forall c,
        offersCalculate (app w) c = true
        <-> toLowerCase (account (app w)) = toLowerCase (owner c)
            /\ status c = processing).
Proof.
  intros Hp Hs Hr. split; [| split].
  - intros He. split.
    + unfold after, calculateCarbon. rewrite Hp. run.
      rewrite Hs; simpl. rewrite Hr; simpl. by rewrite He.
    + apply calculateCarbon_stops. by rewrite He.
  - intros d m Hw Hd Hm.
    destruct (calculateCarbon_run i w d m) as (_ & L & S & _); try done.
    rewrite L, S. split; [| done].
    unfold record_of; simpl. by rewrite lookup_insert_eq.
  - intros c. unfold offersCalculate, isOwner.
    rewrite andb_true_iff, !bool_decide_eq_true. done.
Qed.

Lemma calculateCarbon_checks_presence_only_witness :
  record_of
    (ledger (after (calculateCarbon "c1")
       (world (ledger_of "c1" (Json record_Camp1_done)) live (session "0xEve" []))))
    "c1"
  = Json (updated record_Camp1_done (carbon_of metrics_2_10_1000_5)).
Proof.
  by apply (calculateCarbon_checks_presence_only "c1"
              (world (ledger_of "c1" (Json record_Camp1_done)) live
                 (session "0xEve" []))).
Defined.

(** C1, as stated, fails: the record is completed and the caller is not its
    owner, and the run succeeds and writes the record again. *)
Lemma calculateCarbon_reruns_for_stranger :
  Stored.status record_Camp1_done = Some completed
  /\ isOwner (session "0xEve" []) (Stored.owner record_Camp1_done) = false
  /\ Tx.status (transactionStatus (app (after (calculateCarbon "c1")
       (world (ledger_of "c1" (Json record_Camp1_done)) live (session "0xEve" [])))))
     = Tx.success
  /\ SetData (campaign_ "c1")
     ∈ calls (after (calculateCarbon "c1")
         (world (ledger_of "c1" (Json record_Camp1_done)) live (session "0xEve" []))).
Proof.
  split; [reflexivity |]. split; [reflexivity |]. split; [reflexivity |].
  apply (bool_decide_unpack _). vm_compute. exact I.
Qed.

Lemma Math_round_nearest x :
  match Math_round x with
  | Some z => exists q, exact x = Some q /\ nearest q z
  | None => exact x = None
  end.
Proof.
  unfold Math_round, exact, nearest.
  destruct (Prim2SF x) as [s | s | | s m e]; try done.
  - exists 0%Q. split; [done |]. split; [by vm_compute | by vm_compute].
  - set (n := if s then Z.neg m else Z.pos m).
    destruct (0 <=? e) eqn:He.
    + eexists. split; [done |].
      unfold Qle, Qlt; simpl. lia.
    + apply Z.leb_gt in He.
      eexists. split; [done |].
      assert (HP : 0 < 2 ^ (- e)) by (apply Z.pow_pos_nonneg; lia).
      replace (2 ^ (1 - e)) with (2 * 2 ^ (- e))
        by (rewrite <- Z.pow_succ_r by lia; f_equal; lia).
      set (P := 2 ^ (- e)) in *.
      pose proof (Z.mul_div_le (2 * n + P) (2 * P) ltac:(lia)) as H1.
      pose proof (Z.mul_succ_div_gt (2 * n + P) (2 * P) ltac:(lia)) as H2.
      set (z := (2 * n + P) / (2 * P)) in *.
      unfold Qle, Qlt; simpl. rewrite Z2Pos.id by done. nia.
Qed.

(** C2, as the program has it.  On a record that has its metrics, a run of
    [calculateCarbon] that reaches the contract stores the record with
    [status] "completed", its name, data, timestamp and owner unchanged, and
    its metrics as [JSON.stringify] writes them.  The footprint stored is the
    integer nearest to the sum of the four products as the arithmetic of
    doubles gives it, the upper one of two, and [null] when that sum is not
    finite; the record is then loaded with this status and this footprint.
    This holds for every status of the record, "processing" in particular. *)
Theorem calculateCarbon_completes i w d m :
  provider (app w) = true ->
  withSigner (net w) = Contract ->
  readFault (net w) (campaign_ i) = None ->
  writeFault (net w) (campaign_ i) = None ->
  record_of (ledger w) i = Json d ->
  Stored.details d = Some m ->
  let sum :=
    (number (servers m) * 0.5 + number (bandwidth m) * 0.02
     + number (impressions m) * 0.001 + number (duration m) * 0.1)%float in
  exists carbon,
    ledger (after (calculateCarbon i) w)
    = {| index := index (ledger w);
         records :=
           <[i := Json {| Stored.name := Stored.name d;
                          Stored.data := Stored.data d;
                          Stored.timestamp := Stored.timestamp d;
                          Stored.owner := Stored.owner d;
                          Stored.carbonFootprint := carbon;
                          Stored.status := Some completed;
                          Stored.details :=
                            Some {| servers := JSON_number (servers m);
                                    bandwidth := JSON_number (bandwidth m);
                                    impressions := JSON_number (impressions m);
                                    duration := JSON_number (duration m) |} |}]>
             (records (ledger w)) |}
    /\ match carbon with
       | Some z => exists q, exact sum = Some q /\ nearest q z
       | None => exact sum = None
       end
    /\ exists c,
         parsed (ledger (after (calculateCarbon i) w)) i = Some c
         /\ status c = completed
         /\ carbonFootprint c = default 0 carbon.
Proof.
  intros Hp Hs Hr Hw Hd Hm sum.
  destruct (calculateCarbon_run i w d m) as (_ & L & _); try done.
  exists (Math_round sum). rewrite L. unfold updated. rewrite Hm.
  split; [done |]. split; [apply Math_round_nearest |].
  unfold parsed, record_of; simpl. rewrite lookup_insert_eq; simpl.
  eexists. split; [reflexivity |]. done.
Qed.

Lemma calculateCarbon_completes_witness :
  exists c,
    parsed
      (ledger (after (calculateCarbon "c1")
         (world (ledger_of "c1" (Json record_Camp1)) live (session "0xOwner" []))))
      "c1" = Some c
    /\ status c = completed /\ carbonFootprint c = 3.
Proof.
  destruct (calculateCarbon_completes "c1"
              (world (ledger_of "c1" (Json record_Camp1)) live (session "0xOwner" []))
              record_Camp1 metrics_2_10_1000_5)
    as (carbon & _ & _ & c & P & S & F); try reflexivity.
  exists c. split; [exact P |]. split; [exact S |].
  vm_compute in P. by simplify_eq.
Defined.

(** C2, as stated, fails when [round] and the sum are those of arithmetic:
    with the metrics 1, 10, 600 and 2 the sum is 1.5 and its rounding 2; the
    sum of the doubles is just below 1.5, and the footprint stored is 1. *)
Lemma calculateCarbon_not_the_rounded_sum :
  Stored.status record_Camp2 = Some processing
  /\ Stored.details record_Camp2 = Some metrics_1_10_600_2
  /\ specified metrics_1_10_600_2 = Some 2
  /\ exists d,
       record_of
         (ledger (after (calculateCarbon "c2")
            (world (ledger_of "c2" (Json record_Camp2)) live
               (session "0xOwner" []))))
         "c2" = Json d
       /\ Stored.status d = Some completed
       /\ Stored.carbonFootprint d = Some 1.
Proof.
  split; [reflexivity |]. split; [reflexivity |]. split; [by vm_compute |].
  eexists. split; [by vm_compute |]. split; reflexivity.
Qed.

(** C10. When the record blob of the id is empty, does not parse, or has no
    [details], [calculateCarbon] issues no [setData]: the stored record and
    the index are as before, and the run ends in the error status.  A run that
    does issue a write has read and parsed a record with its metrics. *)
Theorem calculateCarbon_failure_writes_nothing i w :
  ((record_of (ledger w) i = Empty \/ record_of (ledger w) i = Garbled
    \/ exists d, record_of (ledger w) i = Json d /\ Stored.details d = None) ->
   ledger (after (calculateCarbon i) w) = ledger w
   /\ (exists cs, calls (after (calculateCarbon i) w) = calls w ++ cs /\ quiet cs)
   /\ (provider (app w) = true ->
       Tx.status (transactionStatus (app (after (calculateCarbon i) w)))
       = Tx.error))
  /\ (forall cs,
        calls (after (calculateCarbon i) w) = calls w ++ cs -> ¬ quiet cs ->
        exists d m, record_of (ledger w) i = Json d /\ Stored.details d = Some m).
Proof.
  split.
  - intros H. apply calculateCarbon_stops.
    destruct H as [-> | [-> | (d & -> & H)]]; done.
  - intros cs Hcs Hq.
    destruct (record_of (ledger w) i) as [| | d] eqn:R.
    3: destruct (Stored.details d) as [m |] eqn:D; [by eauto |].
    all: destruct (calculateCarbon_stops i w) as (_ & (cs' & C & Q) & _);
      [by rewrite R | ].
    all: rewrite Hcs in C; apply app_inv_head in C; by subst.
Qed.

Lemma calculateCarbon_failure_writes_nothing_witness :
  ledger (after (calculateCarbon "b") (world ledger_ab live (session "0x1" [])))
  = ledger_ab.
Proof.
  apply (calculateCarbon_failure_writes_nothing "b"
           (world ledger_ab live (session "0x1" []))).
  right; left. reflexivity.
Defined.

(** ** The ledger writer *)




(** ** Derived values *)

Lemma or_zero_id x : or_zero x = x.
Proof. unfold or_zero. by case_decide. Qed.

Lemma fold_sum l : forall a,
  fold_left (fun sum c => sum + or_zero (carbonFootprint c)) l a
  = a + sum_footprints l.
Proof.
  induction l as [| c l IH]; intros a; simpl; [lia |].
  rewrite IH, or_zero_id. lia.
Qed.

Lemma count_filter s l :
  length (filter (fun c => status c = s) l) = count_status s l.
Proof.
  induction l as [| c l IH]; simpl; [done |].
  rewrite filter_cons. case_decide; simpl; by rewrite IH.
Qed.

(** C9. The statistics of a campaign list: the two counts are the numbers of
    records in status "completed" and "processing", [totalCarbon] is the sum
    of the footprints, and [avgCarbon] is always a number: 0 for the empty
    list, the sum divided by the length otherwise. *)
Theorem statistics_of_campaigns (l : list CampaignData) :
  completedCount l = count_status completed l
  /\ processingCount l = count_status processing l
  /\ totalCarbon l = sum_footprints l
  /\ avgCarbon l
     = Some (if decide (l = []) then 0
             else of_Z (sum_footprints l) / of_Z (Z.of_nat (length l)))%Qc
  /\ avgCarbon [] = Some 0%Qc.
Proof.
  assert (T : totalCarbon l = sum_footprints l)
    by (unfold totalCarbon; by rewrite fold_sum).
  repeat split; try apply count_filter; try done.
  unfold avgCarbon. rewrite T.
  destruct l as [| c l]; simpl; [done |].
  unfold div. case_decide as H; [lia | done].
Qed.

Lemma slice_prefix {A} (l : list A) (n : nat) :
  slice l 0 (Z.of_nat n) = take n l.
Proof.
  unfold slice, relative. simpl.
  replace (0 `min` Z.of_nat (length l)) with 0 by lia.
  change (drop (Z.to_nat 0) l) with l.
  destruct (Z.ltb_spec (Z.of_nat n) 0); [lia |].
  destruct (decide (n ≤ length l)%nat).
  - f_equal. lia.
  - rewrite !take_ge by lia. done.
Qed.

Lemma Math_max_greatest xs : forall x,
  Math_max x xs ∈ x :: xs
  /\ Forall (fun y => y ≤ Math_max x xs) (x :: xs).
Proof.
  unfold Math_max.
  induction xs as [| y xs IH]; intros x; simpl.
  - split; [by left |]. repeat constructor. lia.
  - destruct (IH (x `max` y)) as [I F].
    apply Forall_cons_1 in F as [Fm F]. split.
    + apply elem_of_cons in I as [-> | I]; [| by right; right].
      destruct (Z.max_spec x y) as [[_ ->] | [_ ->]]; [right | ]; by left.
    + repeat constructor; [lia | lia | done].
Qed.




Lemma Math_ceil_quotient (n : nat) :
  Math_ceil (of_Z (Z.of_nat n) / of_Z 5)%Qc = (Z.of_nat n + 4) / 5.
Proof.
  unfold Math_ceil, of_Z.
  assert (E : (this (Q2Qc (inject_Z (Z.of_nat n)) / Q2Qc (inject_Z 5))%Qc
               == Z.of_nat n # 5)%Q).
  { unfold Qcdiv, Qcmult, Qcinv, Q2Qc; simpl this.
    rewrite !Qred_correct. by rewrite (Qmake_Qdiv (Z.of_nat n) 5). }
  rewrite E. unfold Qceiling, Qfloor; simpl.
  Z.to_euclidean_division_equations. lia.
Qed.

Lemma slice_page {A} (l : list A) (p : Z) :
  1 ≤ p -> 5 * (p - 1) < Z.of_nat (length l) ->
  slice l (p * 5 - 5) (p * 5) = take 5 (drop (Z.to_nat (5 * (p - 1))) l)
  /\ slice l (p * 5 - 5) (p * 5) <> [].
Proof.
  intros H1 H2. unfold slice, relative.
  destruct (Z.ltb_spec (p * 5 - 5) 0); [lia |].
  destruct (Z.ltb_spec (p * 5) 0); [lia |].
  replace ((p * 5 - 5) `min` Z.of_nat (length l)) with (5 * (p - 1)) by lia.
  assert (L : (Z.to_nat (5 * (p - 1)) < length l)%nat) by lia.
  assert (D : drop (Z.to_nat (5 * (p - 1))) l <> []).
  { intros E. apply (f_equal length) in E. rewrite length_drop in E.
    simpl in E. lia. }
  split.
  - destruct (decide (p * 5 ≤ Z.of_nat (length l))).
    + f_equal. lia.
    + rewrite !take_ge; [done | |]; rewrite length_drop; lia.
  - destruct (drop (Z.to_nat (5 * (p - 1))) l) as [| x d]; [done |].
    replace (Z.to_nat ((p * 5) `min` Z.of_nat (length l) - 5 * (p - 1)))
      with (S (Z.to_nat ((p * 5) `min` Z.of_nat (length l) - 5 * (p - 1)) - 1))
      by lia.
    done.
Qed.

Lemma slice_beyond {A} (l : list A) (p : Z) :
  Z.of_nat (length l) ≤ 5 * (p - 1) ->
  slice l (p * 5 - 5) (p * 5) = [].
Proof.
  intros H. unfold slice, relative.
  destruct (Z.ltb_spec (p * 5 - 5) 0); [lia |].
  destruct (Z.ltb_spec (p * 5) 0); [lia |].
  replace (Z.to_nat _) with 0%nat by lia. done.
Qed.

(** C8, as the program has it.  The page size is 5 and pages count from 1;
    [totalPages] is the filtered count divided by 5, rounded up.  [paginate]
    stores the page it is given, unchanged.  A page from 1 to [totalPages]
    shows its records, at most five and at least one; a page beyond
    [totalPages] shows none, without an error.  The buttons only ask for pages
    from 1 to [totalPages]. *)
Theorem pagination_of_filtered (a : App) :
  totalPages a = (Z.of_nat (length (filteredCampaigns a)) + 4) / 5
  /\ (forall p w, currentPage (app (after (paginate p) w)) = p)
  /\ (1 ≤ currentPage a ≤ totalPages a ->
      currentItems a
      = take 5 (drop (Z.to_nat (5 * (currentPage a - 1))) (filteredCampaigns a))
      /\ currentItems a <> [])
  /\ (totalPages a < currentPage a -> currentItems a = [])
  /\ (1 ≤ currentPage a ->
      Forall (fun q => 1 ≤ q ≤ totalPages a) (pageButtons a)).
Proof.
  assert (T : totalPages a = (Z.of_nat (length (filteredCampaigns a)) + 4) / 5)
    by apply Math_ceil_quotient.
  assert (B : totalPages a < currentPage a -> currentItems a = []).
  { intros H. apply slice_beyond. rewrite T in H.
    Z.to_euclidean_division_equations. lia. }
  split; [exact T |]. split; [done |]. split; [| split; [exact B |]].
  - intros [H1 H2]. apply slice_page; [done |]. rewrite T in H2.
    Z.to_euclidean_division_equations. lia.
  - intros H1. unfold pageButtons.
    destruct (Nat.eqb_spec (length (currentItems a)) 0) as [| E];
      [constructor |].
    assert (currentPage a ≤ totalPages a).
    { destruct (decide (currentPage a ≤ totalPages a)); [done |].
      destruct E. rewrite B; [done | lia]. }
    destruct (Z.ltb_spec 1 (totalPages a)); [| constructor].
    rewrite !Forall_app. repeat split.
    + destruct (Z.eqb_spec (currentPage a) 1); repeat constructor; lia.
    + apply List.Forall_map, Forall_forall. intros i Hi%elem_of_seq. lia.
    + destruct (Z.eqb_spec (currentPage a) (totalPages a));
        repeat constructor; lia.
Qed.

Lemma pagination_of_filtered_witness :
  1 ≤ currentPage (session "0xOwner" six_done) ≤ totalPages (session "0xOwner" six_done)
  /\ currentItems (session "0xOwner" six_done)
     = take 5 (drop (Z.to_nat (5 * (currentPage (session "0xOwner" six_done) - 1)))
                 (filteredCampaigns (session "0xOwner" six_done))).
Proof.
  assert (H : 1 ≤ currentPage (session "0xOwner" six_done)
                ≤ totalPages (session "0xOwner" six_done))
    by (vm_compute; split; discriminate).
  split; [exact H |].
  destruct (pagination_of_filtered (session "0xOwner" six_done))
    as (_ & _ & P & _).
  by destruct (P H).
Defined.

(** C8, as stated, fails: six records make two pages; page 3 is asked for,
    and the current page is 3, not 2, and shows nothing. *)
Lemma paginate_out_of_range_not_clamped :
  totalPages (app (after (paginate 3) (world ledger_ab live (session "0xOwner" six_done))))
  = 2
  /\ currentPage (app (after (paginate 3) (world ledger_ab live (session "0xOwner" six_done))))
     = 3
  /\ currentPage (app (after (paginate 3) (world ledger_ab live (session "0xOwner" six_done))))
     <> clamp 2 3
  /\ currentItems (app (after (paginate 3) (world ledger_ab live (session "0xOwner" six_done))))
     = [].
Proof. repeat split; vm_compute; congruence. Qed.

(** * Further properties *)

Arguments listing : simpl never.
Arguments record_of : simpl never.
Arguments new_id : simpl never.
Arguments btoa : simpl never.
Arguments JSON_stringify_form : simpl never.
Arguments details_of : simpl never.

(** ** [loadCampaigns] *)

(** The component state after a load, in all cases. *)
Lemma loadCampaigns_app w :
  app (after loadCampaigns w)
  = refreshed (app w)
      (if reaches (net w) then listing (net w) (ledger w)
       else campaigns (app w)).
Proof.
  unfold after, loadCampaigns, reaches, listing, index_ids. run.
  destruct (readOnly (net w)); simpl; try reflexivity.
  destruct (available (net w)) as [[|] |]; simpl; try reflexivity.
  destruct (readFault (net w) campaign_keys); simpl; [reflexivity |].
  run_parse_keys w1.
  match goal with
  | |- context [for_of ?keys loadCampaign [] w1] =>
      destruct (for_of_loadCampaign keys [] w1) as (w2 & E2 & A2); rewrite E2
  end.
  simpl. rewrite A2, A, L, N. reflexivity.
Qed.

Lemma loadCampaign_calls lst k w :
  calls (loadCampaign lst k w).2 = calls w ++ [GetData (campaign_ k)].
Proof.
  unfold loadCampaign. run.
  destruct (readFault (net w) (campaign_ k)); simpl; [done |].
  by destruct (record_of (ledger w) k).
Qed.

Lemma for_of_loadCampaign_calls keys : forall lst w,
  calls (for_of keys loadCampaign lst w).2
  = calls w ++ map (fun i => GetData (campaign_ i)) keys.
Proof.
  induction keys as [| k keys IH]; intros lst w; simpl.
  - by rewrite app_nil_r.
  - unfold bind.
    destruct (loadCampaign_result lst k w) as (w1 & E1 & _).
    pose proof (loadCampaign_calls lst k w) as C. rewrite E1 in *. simpl in C.
    rewrite IH, C. by rewrite <- app_assoc.
Qed.

(** X1. Whatever happens during a load (success, a contract that is missing
    or not available, an exception), it ends with [isRefreshing] and [loading]
    both false. *)
Theorem loadCampaigns_clears_flags w :
  isRefreshing (app (after loadCampaigns w)) = false
  /\ loading (app (after loadCampaigns w)) = false.
Proof. by rewrite loadCampaigns_app. Qed.

(** X2. When the contract is obtained but [isAvailable()] answers false, the
    load stops there: [campaigns] keeps its value, "Contract is not available"
    goes to the console, and no [getData] is made.  When no contract is
    obtained ([null]) nothing is called or logged at all. *)
Theorem loadCampaigns_stops_at_gate w :
  (readOnly (net w) = Contract -> available (net w) = Reply false ->
   campaigns (app (after loadCampaigns w)) = campaigns (app w)
   /\ console (after loadCampaigns w) = console w ++ ["Contract is not available"]
   /\ calls (after loadCampaigns w) = calls w ++ [IsAvailable])
  /\ (readOnly (net w) = Null ->
      campaigns (app (after loadCampaigns w)) = campaigns (app w)
      /\ console (after loadCampaigns w) = console w
      /\ calls (after loadCampaigns w) = calls w).
Proof.
  split.
  - intros H1 H2. unfold after, loadCampaigns. run.
    rewrite H1; simpl. by rewrite H2.
  - intros H1. unfold after, loadCampaigns. run. by rewrite H1.
Qed.

Lemma loadCampaigns_stops_at_gate_witness :
  campaigns (app (after loadCampaigns
     (world ledger_ab unavailable (session "0x1" [entry "a" record_X]))))
  = [entry "a" record_X]
  /\ calls (after loadCampaigns
       (world ledger_ab unavailable (session "0x1" [entry "a" record_X])))
     = [IsAvailable].
Proof.
  destruct (loadCampaigns_stops_at_gate
              (world ledger_ab unavailable (session "0x1" [entry "a" record_X])))
    as [H _].
  destruct H as (H1 & _ & H2); [reflexivity | reflexivity |].
  split; [exact H1 | exact H2].
Defined.

(** X3. A load that reaches the records makes one [isAvailable] call, one read
    of the index, and one read for each id of the index, in the order of the
    index; a read that rejects or a blob that does not parse does not stop
    the following reads. *)
Theorem loadCampaigns_reads_every_id w :
  reaches (net w) = true ->
  calls (after loadCampaigns w)
  = calls w
    ++ IsAvailable :: GetData campaign_keys
       :: map (fun i => GetData (campaign_ i)) (index_ids (ledger w)).
Proof.
  unfold reaches, after, loadCampaigns, index_ids. run.
  destruct (readOnly (net w)); simpl; try done.
  destruct (available (net w)) as [[|] |]; simpl; try done.
  destruct (readFault (net w) campaign_keys); simpl; [done |]. intros _.
  run_parse_keys w1.
  match goal with
  | |- context [for_of ?keys loadCampaign [] w1] =>
      pose proof (for_of_loadCampaign_calls keys [] w1) as Hc;
      destruct (for_of keys loadCampaign [] w1) as [[lst | e] w2]
  end; simpl in *; rewrite Hc, C; simpl; by rewrite <- !app_assoc.
Qed.

Lemma loadCampaigns_reads_every_id_witness :
  calls (after loadCampaigns (world ledger_ab live (session "0x1" [])))
  = [IsAvailable; GetData campaign_keys; GetData (campaign_ "a");
     GetData (campaign_ "b")].
Proof.
  by apply (loadCampaigns_reads_every_id (world ledger_ab live (session "0x1" []))).
Defined.

(** X4. Loading twice in a row leaves the component in the state of the first
    load: the second load shows the same list, whether or not the contract
    could be reached. *)
Theorem loadCampaigns_twice w :
  app (after loadCampaigns (after loadCampaigns w)) = app (after loadCampaigns w).
Proof.
  pose proof (framed_loadCampaigns w) as F.
  rewrite (loadCampaigns_app (after loadCampaigns w)).
  unfold after in *. rewrite (frame_net _ _ F), (frame_ledger _ _ F).
  pose proof (loadCampaigns_app w) as E. unfold after in E. rewrite E.
  by destruct (reaches (net w)).
Qed.

(** X5. A load that reaches the records shows at most one row for each entry
    of the index. *)
Theorem loadCampaigns_at_most_index w :
  reaches (net w) = true ->
  (length (campaigns (app (after loadCampaigns w)))
   <= length (index_ids (ledger w)))%nat.
Proof.
  intros H. rewrite loadCampaigns_app, H. simpl.
  unfold listing. rewrite Array_sort_perm.
  generalize (index_ids (ledger w)). intros l.
  induction l as [| i l IH]; csimpl; [done |].
  destruct (fetched (net w) (ledger w) i); csimpl; lia.
Qed.

Lemma loadCampaigns_at_most_index_witness :
  (length (campaigns (app (after loadCampaigns
      (world ledger_ab live (session "0x1" []))))) <= 2)%nat.
Proof.
  by apply (loadCampaigns_at_most_index (world ledger_ab live (session "0x1" []))).
Defined.

(** ** [submitCampaign] *)


Ltac run_load w' :=
  let Hn := fresh "Hn" in
  let Hf := fresh "Hf" in
  let Ha := fresh "Ha" in
  match goal with
  | |- context [loadCampaigns ?x] =>
      pose proof (loadCampaigns_normal x) as Hn;
      pose proof (framed_loadCampaigns x) as Hf;
      pose proof (loadCampaigns_app x) as Ha;
      unfold after in Ha;
      destruct (loadCampaigns x) as [? w'];
      cbn [fst snd] in Hn, Hf, Ha; subst; cbn [fst snd]
  end.


Lemma listing_record t l c :
  c ∈ listing t l ->
  exists d, record_of l (id c) = Json d /\ c = entry (id c) d.
Proof.
  unfold listing. rewrite Array_sort_perm, list_elem_of_omap.
  intros (i & Hi & Hc). unfold fetched, parsed in Hc.
  destruct (readFault t (campaign_ i)); [done |].
  destruct (record_of l i) as [| | d] eqn:R; simplify_eq. simpl. eauto.
Qed.



Ltac other_records :=
  intros; unfold record_of; cbn [records index ledger];
  rewrite ?lookup_insert_ne by done; auto.

Ltac contained :=
  cbn [ledger net app with_app with_calls with_ledger with_console with_alerts
       fst snd records index creating transactionStatus Tx.status];
  repeat split; auto 12; other_records.

(** X6. Whatever the transport does, [submitCampaign] leaves the record of
    every other id as it was, and leaves the index as it was or sets it to
    the ids read with the new id at the end; with a wallet connected it ends
    with [creating] false.  It returns normally, every exception being
    caught, unless the value caught has no message: then the handler itself
    throws a [TypeError], which reaches the caller, and the status is left at
    "pending". *)
Theorem submitCampaign_contained env w :
  (forall j, j <> new_id env ->
     record_of (ledger (after (submitCampaign env) w)) j = record_of (ledger w) j)
  /\ (index (ledger (after (submitCampaign env) w)) = index (ledger w)
      \/ index (ledger (after (submitCampaign env) w))
         = Json (index_ids (ledger w) ++ [new_id env]))
  /\ (provider (app w) = true ->
      creating (app (after (submitCampaign env) w)) = false)
  /\ (outcome (submitCampaign env) w = Normal tt
      \/ outcome (submitCampaign env) w
         = Throw (Error "Cannot read properties of undefined (reading 'includes')")
         /\ Tx.status (transactionStatus (app (after (submitCampaign env) w)))
            = Tx.pending
         /\ (withSigner (net w) = Unreachable Bare
             \/ writeFault (net w) (campaign_ (new_id env)) = Some Bare
             \/ readFault (net w) campaign_keys = Some Bare
             \/ writeFault (net w) campaign_keys = Some Bare)).
Proof.
  unfold outcome, after, submitCampaign, encrypt, index_ids, new_id.
  destruct (provider (app w)); [| run; by contained].
  destruct (btoa (JSON_stringify_form (newCampaignData (app w)))) as [b |];
    run; [| by contained].
  destruct (withSigner (net w)) as [| | [msg |]]; simpl; try by contained.
  destruct (writeFault (net w) (campaign_ _)) as [[msg |] |]; simpl;
    try by contained.
  destruct (readFault (net w) campaign_keys) as [[msg |] |]; simpl;
    try by contained.
  run_parse_keys w1. rewrite N; simpl.
  destruct (writeFault (net w) campaign_keys) as [[msg |] |]; simpl.
  - rewrite L. by contained.
  - rewrite L, A. by contained.
  - run_load w'. destruct Hf as [L' _ _ _ _ _ _ _ _].
    cbn [ledger net app with_app with_calls with_ledger with_console] in *.
    rewrite L', Ha, L. unfold refreshed. by contained.
Qed.

Lemma submitCampaign_contained_witness :
  creating (app (after (submitCampaign ambient) (world ledger_ab mute session_Camp1)))
  = false
  /\ outcome (submitCampaign ambient) (world ledger_ab mute session_Camp1)
     = Throw (Error "Cannot read properties of undefined (reading 'includes')").
Proof.
  destruct (submitCampaign_contained ambient (world ledger_ab mute session_Camp1))
    as (_ & _ & H & [O | (O & _)]).
  - vm_compute in O. discriminate.
  - split; [by apply H | exact O].
Defined.



(** X8. When [btoa] returns and the first write is refused with a message
    that contains "user rejected transaction", the status reads "Transaction
    rejected by user", nothing is stored, and the run makes no other call
    than that write. *)
Theorem submitCampaign_rejected_by_user env w b message :
  provider (app w) = true ->
  btoa (JSON_stringify_form (newCampaignData (app w))) = Some b ->
  withSigner (net w) = Contract ->
  writeFault (net w) (campaign_ (new_id env)) = Some (Error message) ->
  includes message "user rejected transaction" = true ->
  ledger (after (submitCampaign env) w) = ledger w
  /\ calls (after (submitCampaign env) w)
     = calls w ++ [SetData (campaign_ (new_id env))]
  /\ transactionStatus (app (after (submitCampaign env) w))
     = {| Tx.visible := true; Tx.status := Tx.error;
          Tx.message := "Transaction rejected by user" |}
  /\ campaigns (app (after (submitCampaign env) w)) = campaigns (app w).
Proof.
  intros Hp Hb Hs Hw Hi.
  unfold after, submitCampaign, encrypt. rewrite Hp, Hb. run.
  rewrite Hs; simpl. fold (new_id env). rewrite Hw; simpl. by rewrite Hi.
Qed.

Lemma submitCampaign_rejected_by_user_witness :
  ledger (after (submitCampaign ambient) (world ledger_ab declining session_Camp1))
  = ledger_ab
  /\ Tx.message (transactionStatus (app (after (submitCampaign ambient)
       (world ledger_ab declining session_Camp1))))
     = "Transaction rejected by user".
Proof.
  destruct (submitCampaign_rejected_by_user ambient
              (world ledger_ab declining session_Camp1)
              payload_Camp1 "user rejected transaction")
    as (H1 & _ & H2 & _); try reflexivity.
  split; [exact H1 | by rewrite H2].
Defined.





(** ** [calculateCarbon] *)

(** What a run of [calculateCarbon] that writes leaves on screen. *)
Lemma calculateCarbon_run_app i w d m :
  provider (app w) = true ->
  withSigner (net w) = Contract ->
  readFault (net w) (campaign_ i) = None ->
  writeFault (net w) (campaign_ i) = None ->
  record_of (ledger w) i = Json d ->
  Stored.details d = Some m ->
  net (after (calculateCarbon i) w) = net w
  /\ provider (app (after (calculateCarbon i) w)) = true
  /\ account (app (after (calculateCarbon i) w)) = account (app w)
  /\ campaigns (app (after (calculateCarbon i) w))
     = (if reaches (net w)
        then listing (net w)
               {| index := index (ledger w);
                  records := <[i := Json (updated d (carbon_of m))]>
                               (records (ledger w)) |}
        else campaigns (app w)).
Proof.
  intros Hp Hs Hr Hw Hd Hm.
  unfold after, calculateCarbon. rewrite Hp. run.
  rewrite Hs; simpl. rewrite Hr; simpl. rewrite Hd; simpl.
  rewrite Hm; simpl. rewrite Hw; simpl.
  run_load w'. destruct Hf as [L N _ _ _ _ _ _ _]. simpl in *.
  rewrite N, Ha. simpl. by rewrite Hp.
Qed.

(** X11. Whatever the transport does, [calculateCarbon] returns normally,
    leaves the index and the record of every other id as they were, and
    changes the record of its id, if at all, in [carbonFootprint] and
    [status], and in the metrics that are not finite, written as [null] (a
    negative zero is written as 0). *)
Theorem calculateCarbon_contained i w :
  outcome (calculateCarbon i) w = Normal tt
  /\ index (ledger (after (calculateCarbon i) w)) = index (ledger w)
  /\ (forall j, j <> i ->
      record_of (ledger (after (calculateCarbon i) w)) j = record_of (ledger w) j)
  /\ (record_of (ledger (after (calculateCarbon i) w)) i = record_of (ledger w) i
      \/ exists d d',
           record_of (ledger w) i = Json d
           /\ record_of (ledger (after (calculateCarbon i) w)) i = Json d'
           /\ Stored.name d' = Stored.name d
           /\ Stored.data d' = Stored.data d
           /\ Stored.timestamp d' = Stored.timestamp d
           /\ Stored.owner d' = Stored.owner d
           /\ Stored.status d' = Some completed
           /\ Stored.details d' = JSON_details <$> Stored.details d).
Proof.
  unfold outcome, after, calculateCarbon.
  destruct (provider (app w)); run; [| by repeat split; auto].
  destruct (withSigner (net w)); simpl; try by repeat split; auto.
  destruct (readFault (net w) (campaign_ i)); simpl; [by repeat split; auto |].
  destruct (record_of (ledger w) i) as [| | d] eqn:R; simpl;
    try by repeat split; auto.
  destruct (Stored.details d) as [m |] eqn:D; simpl; [| by repeat split; auto].
  destruct (writeFault (net w) (campaign_ i)); simpl;
    [by repeat split; auto |].
  run_load w'. destruct Hf as [L _ _ _ _ _ _ _ _]. simpl in *. rewrite L.
  split; [done |]. split; [done |]. split; [other_records |].
  right. exists d, (updated d (carbon_of m)).
  unfold record_of; simpl. rewrite lookup_insert_eq. by repeat split.
Qed.

(** X12. On a record whose metrics are as [JSON.stringify] writes them
    (finite and not the negative zero, or [null]), computing twice gives what
    computing once gives: the second run reads the same metrics and writes
    the same record. *)
Theorem calculateCarbon_twice i w d m :
  provider (app w) = true ->
  withSigner (net w) = Contract ->
  readFault (net w) (campaign_ i) = None ->
  writeFault (net w) (campaign_ i) = None ->
  record_of (ledger w) i = Json d ->
  Stored.details d = Some m ->
  JSON_details m = m ->
  ledger (after (calculateCarbon i) (after (calculateCarbon i) w))
  = ledger (after (calculateCarbon i) w).
Proof.
  intros Hp Hs Hr Hw Hd Hm Hj.
  destruct (calculateCarbon_run i w d m) as (_ & L & _); try done.
  destruct (calculateCarbon_run_app i w d m) as (N & P & _); try done.
  destruct (calculateCarbon_run i (after (calculateCarbon i) w)
              (updated d (carbon_of m)) m) as (_ & L' & _);
    rewrite ?N; try done.
  - rewrite L. unfold record_of; simpl. by rewrite lookup_insert_eq.
  - unfold updated; simpl. rewrite Hm; simpl. by rewrite Hj.
  - rewrite L', L; simpl. rewrite insert_insert_eq.
    do 3 f_equal. unfold updated; simpl. rewrite Hm; simpl. by rewrite !Hj.
Qed.

Lemma calculateCarbon_twice_witness :
  ledger (after (calculateCarbon "c1") (after (calculateCarbon "c1")
            (world (ledger_of "c1" (Json record_Camp1)) live (session "0xOwner" []))))
  = ledger (after (calculateCarbon "c1")
              (world (ledger_of "c1" (Json record_Camp1)) live (session "0xOwner" []))).
Proof.
  by apply (calculateCarbon_twice "c1"
              (world (ledger_of "c1" (Json record_Camp1)) live (session "0xOwner" []))
              record_Camp1 metrics_2_10_1000_5).
Defined.

(** X13. When the write of the computed record is refused, the record stays
    as it was, the status shows "Calculation failed: " and the message of the
    refusal, and the list on screen is not reloaded. *)
Theorem calculateCarbon_write_refused i w d m e :
  provider (app w) = true ->
  withSigner (net w) = Contract ->
  readFault (net w) (campaign_ i) = None ->
  record_of (ledger w) i = Json d ->
  Stored.details d = Some m ->
  writeFault (net w) (campaign_ i) = Some e ->
  ledger (after (calculateCarbon i) w) = ledger w
  /\ calls (after (calculateCarbon i) w)
     = calls w ++ [GetData (campaign_ i); SetData (campaign_ i)]
  /\ transactionStatus (app (after (calculateCarbon i) w))
     = {| Tx.visible := true; Tx.status := Tx.error;
          Tx.message := "Calculation failed: " +:+ or_unknown e |}
  /\ campaigns (app (after (calculateCarbon i) w)) = campaigns (app w).
Proof.
  intros Hp Hs Hr Hd Hm Hw.
  unfold after, calculateCarbon. rewrite Hp. run.
  rewrite Hs; simpl. rewrite Hr; simpl. rewrite Hd; simpl.
  rewrite Hm; simpl. rewrite Hw; simpl. by rewrite <- app_assoc.
Qed.

Lemma calculateCarbon_write_refused_witness :
  ledger (after (calculateCarbon "c1")
            (world (ledger_of "c1" (Json record_Camp1)) declining (session "0xOwner" [])))
  = ledger_of "c1" (Json record_Camp1)
  /\ Tx.message (transactionStatus (app (after (calculateCarbon "c1")
       (world (ledger_of "c1" (Json record_Camp1)) declining (session "0xOwner" [])))))
     = "Calculation failed: user rejected transaction".
Proof.
  destruct (calculateCarbon_write_refused "c1"
              (world (ledger_of "c1" (Json record_Camp1)) declining (session "0xOwner" []))
              record_Camp1 metrics_2_10_1000_5 (Error "user rejected transaction"))
    as (H1 & _ & H2 & _); try reflexivity.
  split; [exact H1 | by rewrite H2].
Defined.

(** X14. After a computation that the contract takes, on a transport that
    answers the reads, every row of the list for that id is in status
    "completed": the view no longer offers the computation for it, to anyone,
    and offers the details. *)
Theorem calculateCarbon_then_not_offered i w d m :
  provider (app w) = true ->
  withSigner (net w) = Contract ->
  writeFault (net w) (campaign_ i) = None ->
  readable (net w) ->
  record_of (ledger w) i = Json d ->
  Stored.details d = Some m ->
  forall c,
    c ∈ campaigns (app (after (calculateCarbon i) w)) -> id c = i ->
    status c = completed
    /\ carbonFootprint c = default 0 (carbon_of m)
    /\ (forall a, offersCalculate a c = false)
    /\ offersDetails c = true.
Proof.
  intros Hp Hs Hw (H1 & H2 & H3) Hd Hm c Hc Hi.
  destruct (calculateCarbon_run_app i w d m) as (_ & _ & _ & C); try done.
  rewrite C in Hc. unfold reaches in Hc. rewrite H1, H2, H3 in Hc.
  apply listing_record in Hc as (d' & R & ->). simpl in Hi. subst i.
  unfold record_of in R; simpl in R. rewrite lookup_insert_eq in R.
  simpl in R. simplify_eq. simpl.
  repeat split; try done.
  intros a. unfold offersCalculate; simpl. by rewrite andb_false_r.
Qed.

Lemma calculateCarbon_then_not_offered_witness :
  Forall (fun c => id c = "c1" -> status c = completed /\ carbonFootprint c = 3)
    (campaigns (app (after (calculateCarbon "c1")
       (world (ledger_of "c1" (Json record_Camp1)) live (session "0xOwner" []))))).
Proof.
  apply Forall_forall. intros c Hc Hi.
  destruct (calculateCarbon_then_not_offered "c1"
              (world (ledger_of "c1" (Json record_Camp1)) live (session "0xOwner" []))
              record_Camp1 metrics_2_10_1000_5) with (c := c)
    as (H1 & H2 & _); try reflexivity; try done.
Defined.


(** ** The search filter *)

Lemma lower_lower c : lower (lower c) = lower c.
Proof. by destruct c as [[] [] [] [] [] [] [] []]. Qed.

Lemma lower_C3_lower_C3 c : lower_C3 (lower_C3 c) = lower_C3 c.
Proof. by destruct c as [[] [] [] [] [] [] [] []]. Qed.

Lemma lower_keeps_C3 c :
  (nat_of_ascii (lower c) =? 195)%nat = (nat_of_ascii c =? 195)%nat.
Proof. by destruct c as [[] [] [] [] [] [] [] []]. Qed.

Lemma lower_C3_keeps_C3 c :
  (nat_of_ascii (lower_C3 c) =? 195)%nat = (nat_of_ascii c =? 195)%nat.
Proof. by destruct c as [[] [] [] [] [] [] [] []]. Qed.

Lemma lower_text_idempotent s : forall b,
  lower_text b (lower_text b s) = lower_text b s.
Proof.
  induction s as [| c s IH]; intros b; [done |].
  cbn [lower_text]. destruct b.
  - by rewrite lower_C3_lower_C3, lower_C3_keeps_C3, IH.
  - by rewrite lower_lower, lower_keeps_C3, IH.
Qed.

Lemma toLowerCase_idempotent s : toLowerCase (toLowerCase s) = toLowerCase s.
Proof. apply lower_text_idempotent. Qed.

Lemma includes_empty s : includes s "" = true.
Proof. by destruct s. Qed.

(** X16. The empty term keeps the whole list.  For a term that has no
    character above U+00FF the letter case of the term does not matter: the
    term and its lower-case form keep the same campaigns. *)
Theorem search_ignores_case (w : World) (s : string) :
  is_Some (latin1 s) ->
  filteredCampaigns (app (after (setSearchTerm "") w)) = campaigns (app w)
  /\ filteredCampaigns (app (after (setSearchTerm (toLowerCase s)) w))
     = filteredCampaigns (app (after (setSearchTerm s) w)).
Proof.
  intros _. unfold filteredCampaigns, after; simpl. split.
  - induction (campaigns (app w)) as [| c l IH]; [done |].
    cbn [List.filter]. unfold matches at 1.
    change (toLowerCase "") with "". by rewrite includes_empty, IH.
  - unfold matches. by rewrite toLowerCase_idempotent.
Qed.

Lemma search_ignores_case_witness :
  filteredCampaigns (app (after (setSearchTerm (toLowerCase "É"))
     (world ledger_ab live (session "0x1" two_cafes))))
  = filteredCampaigns (app (after (setSearchTerm "É")
      (world ledger_ab live (session "0x1" two_cafes))))
  /\ filteredCampaigns (app (after (setSearchTerm "É")
       (world ledger_ab live (session "0x1" two_cafes))))
     = two_cafes.
Proof.
  split; [| reflexivity].
  apply (search_ignores_case (world ledger_ab live (session "0x1" two_cafes)) "É").
  by exists [201%N].
Defined.

(** ** Pagination *)

Lemma slice_chunk {A} (l : list A) (p : Z) :
  1 ≤ p -> slice l (p * 5 - 5) (p * 5) = take 5 (drop (Z.to_nat (5 * (p - 1))) l).
Proof.
  intros H. destruct (decide (5 * (p - 1) < Z.of_nat (length l))).
  - by apply slice_page.
  - rewrite slice_beyond by lia. rewrite drop_ge by lia. done.
Qed.

Lemma chunks_concat {A} (n : nat) : forall l : list A,
  (length l <= 5 * n)%nat ->
  concat (map (fun k => take 5 (drop (5 * k) l)) (seq 0 n)) = l.
Proof.
  induction n as [| n IH]; intros l H.
  - destruct l; [done | simpl in H; lia].
  - change (seq 0 (S n)) with (0%nat :: seq 1 n).
    rewrite <- seq_shift, map_cons, map_map, concat_cons.
    transitivity (take 5 l ++ drop 5 l); [| apply take_drop].
    f_equal.
    etrans; [| apply (IH (drop 5 l)); rewrite length_drop; lia].
    f_equal. apply map_ext. intros k. rewrite drop_drop.
    do 2 f_equal. lia.
Qed.

(** X17. The pages partition the filtered list: the rows of pages 1 to
    [totalPages], one after the other, are the filtered list, each campaign
    on one page and in the same order. *)
Theorem pages_partition (w : World) :
  concat (map (fun k => currentItems (app (after (paginate (Z.of_nat k + 1)) w)))
            (seq 0 (Z.to_nat (totalPages (app w)))))
  = filteredCampaigns (app w).
Proof.
  unfold currentItems, indexOfFirstItem, indexOfLastItem, itemsPerPage; simpl.
  change (filteredCampaigns _) with (filteredCampaigns (app w)) at 1.
  erewrite map_ext.
  2: { intros k. rewrite slice_chunk by lia.
       replace (Z.to_nat (5 * (Z.of_nat k + 1 - 1))) with (5 * k)%nat by lia.
       reflexivity. }
  apply chunks_concat.
  unfold totalPages, itemsPerPage. rewrite Math_ceil_quotient.
  Z.to_euclidean_division_equations. lia.
Qed.

(** X18. Typing in the search box keeps the current page.  When the page is
    then beyond the last page of the shorter list, no row and no pagination
    button is shown, although the filtered list may have campaigns. *)
Theorem search_keeps_page (w : World) (s : string) :
  currentPage (app (after (setSearchTerm s) w)) = currentPage (app w)
  /\ (totalPages (app (after (setSearchTerm s) w)) < currentPage (app w) ->
      currentItems (app (after (setSearchTerm s) w)) = []
      /\ pageButtons (app (after (setSearchTerm s) w)) = []).
Proof.
  split; [done |]. intros H.
  assert (E : currentItems (app (after (setSearchTerm s) w)) = []).
  { unfold currentItems, indexOfFirstItem, indexOfLastItem, itemsPerPage.
    apply slice_beyond. unfold totalPages, itemsPerPage in H.
    rewrite Math_ceil_quotient in H. simpl in *.
    Z.to_euclidean_division_equations. lia. }
  split; [exact E |]. unfold pageButtons. by rewrite E.
Qed.

Lemma search_keeps_page_witness :
  filteredCampaigns (app (after (setSearchTerm "F")
      (after (paginate 2) (world ledger_ab live (session "0xOwner" six_done)))))
  = [done "f" 600 1]
  /\ currentItems (app (after (setSearchTerm "F")
      (after (paginate 2) (world ledger_ab live (session "0xOwner" six_done)))))
     = []
  /\ pageButtons (app (after (setSearchTerm "F")
      (after (paginate 2) (world ledger_ab live (session "0xOwner" six_done)))))
     = [].
Proof.
  split; [reflexivity |].
  apply (search_keeps_page
           (after (paginate 2) (world ledger_ab live (session "0xOwner" six_done)))
           "F").
  vm_compute. reflexivity.
Defined.

(** ** Statistics *)

(** X19. Every campaign is counted once: the completed, the processing and
    those in status "error" add up to the length of the list, so the two
    counters shown never exceed the total. *)
Theorem counts_partition (l : list CampaignData) :
  (completedCount l + processingCount l + count_status error l = length l)%nat
  /\ (completedCount l + processingCount l <= length l)%nat.
Proof.
  unfold completedCount, processingCount. rewrite !count_filter.
  assert ((count_status completed l + count_status processing l
           + count_status error l = length l)%nat).
  { induction l as [| c l IH]; simpl; [done |].
    destruct (status c); simpl; lia. }
  lia.
Qed.

(** ** The chart *)

Lemma renderCarbonChart_shape l c cs :
  completed_of l = c :: cs ->
  renderCarbonChart l
  = Bars (map (bar (Math_max (carbonFootprint c) (map carbonFootprint cs)))
            (take 5 (c :: cs))).
Proof.
  unfold renderCarbonChart, completed_of. intros E.
  destruct l as [| c0 l0]; [done |].
  change (length (c0 :: l0) =? 0)%nat with false. cbv iota.
  rewrite E. by rewrite (slice_prefix _ 5).
Qed.

Lemma percent_bounds c m :
  0 ≤ c ≤ m -> 0 < m ->
  (0 ≤ of_Z c / of_Z m * of_Z 100)%Qc /\ (of_Z c / of_Z m * of_Z 100 ≤ of_Z 100)%Qc.
Proof.
  intros Hc Hm. unfold Qcle, Qcdiv, Qcmult, Qcinv, of_Z, Q2Qc; simpl this.
  rewrite !Qred_correct.
  destruct m as [| p | p]; try lia.
  unfold Qle, Qinv, Qmult; simpl. split; nia.
Qed.

(** X20. When no completed footprint is negative and one is positive, every
    bar has a width, between 0 and 100 percent; there are as many bars as
    completed campaigns, up to five; and a bar whose footprint is the largest
    of the completed ones is at 100 percent. *)
Theorem renderCarbonChart_widths (l : list CampaignData) :
  Forall (fun c => 0 ≤ carbonFootprint c) (completed_of l) ->
  Exists (fun c => 0 < carbonFootprint c) (completed_of l) ->
  exists maxCarbon,
    renderCarbonChart l = Bars (map (bar maxCarbon) (take 5 (completed_of l)))
    /\ length (take 5 (completed_of l)) = (5 `min` length (completed_of l))%nat
    /\ Forall (fun c =>
         exists q, width (bar maxCarbon c) = Some q
                   /\ (0 ≤ q)%Qc /\ (q ≤ of_Z 100)%Qc
                   /\ (carbonFootprint c = maxCarbon -> q = of_Z 100))
         (completed_of l).
Proof.
  intros Hpos Hex.
  destruct (completed_of l) as [| c cs] eqn:E; [by apply Exists_nil in Hex |].
  destruct (Math_max_greatest (map carbonFootprint cs) (carbonFootprint c))
    as [I F].
  set (m := Math_max _ _) in *.
  change (carbonFootprint c :: map carbonFootprint cs)
    with (map carbonFootprint (c :: cs)) in F, I.
  apply (proj1 (List.Forall_map carbonFootprint _ (c :: cs))) in F.
  assert (Hm : 0 < m).
  { apply Exists_exists in Hex as (x & Hx & Hx0).
    rewrite Forall_forall in F. specialize (F x Hx). simpl in F. lia. }
  exists m. split; [by apply renderCarbonChart_shape |].
  split; [by rewrite length_take |].
  rewrite Forall_forall in *. intros x Hx.
  specialize (Hpos x Hx). specialize (F x Hx). simpl in *.
  unfold bar, div; simpl. case_decide; [lia |]. eexists. split; [done |].
  destruct (percent_bounds (carbonFootprint x) m) as [B1 B2]; [lia | lia |].
  split; [done |]. split; [done |].
  intros ->. unfold Qcdiv. rewrite Qcmult_inv_r, Qcmult_1_l; [done |].
  intros H0. apply (Q2Qc_eq_iff (inject_Z m) 0) in H0.
  unfold Qeq in H0; simpl in H0. lia.
Qed.

Lemma renderCarbonChart_widths_witness :
  exists maxCarbon,
    renderCarbonChart six_done
    = Bars (map (bar maxCarbon) (take 5 (completed_of six_done)))
    /\ length (take 5 (completed_of six_done)) = 5%nat.
Proof.
  destruct (renderCarbonChart_widths six_done) as (m & H1 & H2 & _).
  - repeat constructor; vm_compute; discriminate.
  - apply Exists_cons_hd. reflexivity.
  - exists m. split; [exact H1 | exact H2].
Defined.

(** X21. When there are completed campaigns and all their footprints are 0,
    the chart is drawn, not the empty state, and no bar has a width: each is
    0 divided by 0. *)
Theorem renderCarbonChart_zero_footprints (l : list CampaignData) :
  completed_of l <> [] ->
  Forall (fun c => carbonFootprint c = 0) (completed_of l) ->
  exists bars,
    renderCarbonChart l = Bars bars
    /\ bars <> []
    /\ Forall (fun b => width b = None) bars.
Proof.
  intros Hne Hz.
  destruct (completed_of l) as [| c cs] eqn:E; [done |].
  destruct (Math_max_greatest (map carbonFootprint cs) (carbonFootprint c))
    as [I _].
  set (m := Math_max _ _) in *.
  change (carbonFootprint c :: map carbonFootprint cs)
    with (map carbonFootprint (c :: cs)) in I.
  assert (Hm : m = 0).
  { apply list_elem_of_In, in_map_iff in I as (x & <- & Hx).
    rewrite Forall_forall in Hz. apply Hz. by apply list_elem_of_In. }
  eexists. split; [by apply renderCarbonChart_shape |]. fold m. rewrite Hm.
  split; [done |].
  apply List.Forall_map, Forall_forall. intros x _. reflexivity.
Qed.

Lemma renderCarbonChart_zero_footprints_witness :
  exists bars,
    renderCarbonChart two_zero = Bars bars
    /\ bars <> []
    /\ Forall (fun b => width b = None) bars.
Proof.
  apply (renderCarbonChart_zero_footprints two_zero).
  - vm_compute. discriminate.
  - repeat constructor.
Defined.

(** ** [checkAvailability] *)

(** X22. [checkAvailability] never throws, writes nothing, raises no alert
    and leaves the list alone; it calls at most [isAvailable].  With no
    contract it changes nothing; when the contract answers, the status is
    "success" whether the answer is true or false, and only the message
    tells them apart; when the call or the contract fails, the status is
    "error". *)
Theorem checkAvailability_reports (w : World) :
  outcome checkAvailability w = Normal tt
  /\ ledger (after checkAvailability w) = ledger w
  /\ alerts (after checkAvailability w) = alerts w
  /\ campaigns (app (after checkAvailability w)) = campaigns (app w)
  /\ match readOnly (net w), available (net w) with
     | Null, _ => after checkAvailability w = w
     | Contract, Reply b =>
         calls (after checkAvailability w) = calls w ++ [IsAvailable]
         /\ transactionStatus (app (after checkAvailability w))
            = {| Tx.visible := true; Tx.status := Tx.success;
                 Tx.message :=
                   "FHE system is "
                   +:+ (if b then "available" else "unavailable") |}
     | Contract, Reject e =>
         calls (after checkAvailability w) = calls w ++ [IsAvailable]
         /\ transactionStatus (app (after checkAvailability w))
            = {| Tx.visible := true; Tx.status := Tx.error;
                 Tx.message := "Availability check failed: " +:+ or_unknown e |}
     | Unreachable e, _ =>
         calls (after checkAvailability w) = calls w
         /\ transactionStatus (app (after checkAvailability w))
            = {| Tx.visible := true; Tx.status := Tx.error;
                 Tx.message := "Availability check failed: " +:+ or_unknown e |}
     end.
Proof.
  unfold outcome, after, checkAvailability. run.
  destruct (readOnly (net w)); simpl.
  - destruct (available (net w)); simpl; repeat split; reflexivity.
  - destruct w; repeat split; reflexivity.
  - repeat split; reflexivity.
Qed.

(** ** The wallet *)

Lemma not_connected_submit env w :
  provider (app w) = false ->
  submitCampaign env w
  = (Normal tt, with_alerts (fun a => a ++ ["Please connect wallet first"]) w).
Proof. intros H. unfold submitCampaign. rewrite H. reflexivity. Qed.

Lemma not_connected_calculate i w :
  provider (app w) = false ->
  calculateCarbon i w
  = (Normal tt, with_alerts (fun a => a ++ ["Please connect wallet first"]) w).
Proof. intros H. unfold calculateCarbon. rewrite H. reflexivity. Qed.

(** X23. Disconnecting keeps the loaded list on display and touches neither
    the contract nor the form; after it, [submitCampaign] and
    [calculateCarbon] only raise the alert "Please connect wallet first":
    no call, no write, no change of the state. *)
Theorem onDisconnect_then_actions (env : Ambient) (i : string) (w : World) :
  outcome onDisconnect w = Normal tt
  /\ campaigns (app (after onDisconnect w)) = campaigns (app w)
  /\ newCampaignData (app (after onDisconnect w)) = newCampaignData (app w)
  /\ ledger (after onDisconnect w) = ledger w
  /\ calls (after onDisconnect w) = calls w
  /\ account (app (after onDisconnect w)) = ""
  /\ submitCampaign env (after onDisconnect w)
     = (Normal tt,
        with_alerts (fun a => a ++ ["Please connect wallet first"])
          (after onDisconnect w))
  /\ calculateCarbon i (after onDisconnect w)
     = (Normal tt,
        with_alerts (fun a => a ++ ["Please connect wallet first"])
          (after onDisconnect w)).
Proof.
  split; [reflexivity |]. do 5 (split; [reflexivity |]).
  split; [by apply not_connected_submit | by apply not_connected_calculate].
Qed.



(** X24. [onWalletSelect] never throws and touches neither the contract nor
    the ledger.  A wallet without a provider changes nothing.  When the
    provider object is not accepted, the alert is raised and neither the
    provider nor the account is set.  Otherwise the provider is set before
    the accounts are asked for: when the request is answered the account is
    the first one, or the empty string if there is none, and the alert is
    raised only if the subscription to account changes throws; when the
    request is refused the alert is raised, the account is what it was and
    the provider stays set.  The listener of account changes sets the account
    the same way and leaves the provider as it is. *)
Theorem onWalletSelect_outcome (wallet : Wallet) (w : World) :
  outcome (onWalletSelect wallet) w = Normal tt
  /\ (forall l,
        account (app (after (accountsChanged l) w)) = default "" (head l)
        /\ provider (app (after (accountsChanged l) w)) = provider (app w))
  /\ ledger (after (onWalletSelect wallet) w) = ledger w
  /\ calls (after (onWalletSelect wallet) w) = calls w
  /\ match injected wallet, accepted wallet, accounts wallet with
     | false, _, _ => after (onWalletSelect wallet) w = w
     | true, false, _ =>
         provider (app (after (onWalletSelect wallet) w)) = provider (app w)
         /\ account (app (after (onWalletSelect wallet) w)) = account (app w)
         /\ alerts (after (onWalletSelect wallet) w)
            = alerts w ++ ["Failed to connect wallet"]
     | true, true, Reply l =>
         provider (app (after (onWalletSelect wallet) w)) = true
         /\ account (app (after (onWalletSelect wallet) w)) = default "" (head l)
         /\ alerts (after (onWalletSelect wallet) w)
            = alerts w
              ++ (if listens wallet then [] else ["Failed to connect wallet"])
     | true, true, Reject _ =>
         provider (app (after (onWalletSelect wallet) w)) = true
         /\ account (app (after (onWalletSelect wallet) w)) = account (app w)
         /\ alerts (after (onWalletSelect wallet) w)
            = alerts w ++ ["Failed to connect wallet"]
     end.
Proof.
  unfold outcome, after, onWalletSelect, accountsChanged, eth_requestAccounts,
    setProvider, setAccount, first_account.
  destruct (injected wallet); run; [| done].
  destruct (accepted wallet); simpl; [| done].
  destruct (accounts wallet); simpl; [| done].
  destruct (listens wallet); simpl; by rewrite ?app_nil_r.
Qed.



(** ** [ModalCreate] *)





(** A form that asks for infinitely many servers passes the check of
    [handleSubmit], and the record stored holds [null] for the servers. *)
Lemma handleSubmit_infinite_servers :
  exists d m,
    record_of
      (ledger (after (handleSubmit ambient) (world ledger_ab live session_infinite)))
      (new_id ambient)
    = Json d
    /\ Stored.details d = Some m
    /\ servers m = None
    /\ carbon_of m = Some 2.
Proof. eexists _, _. split; [by vm_compute |]. by vm_compute. Qed.

(** * The contract *)

Import AdCarbonFHE.

(** A successful call leaves the campaigns and their count alone, or adds
    one campaign under the next id. *)
Lemma call_campaigns `{Imports} tx c s s' :
  call tx c s = Ok s' ->
  (campaignCount s' = campaignCount s
   /\ encryptedCampaigns s' = encryptedCampaigns s)
  \/ (exists c0,
        campaignCount s' = campaignCount s + 1
        /\ Campaign.id c0 = campaignCount s + 1
        /\ encryptedCampaigns s' = <[campaignCount s + 1 := c0]> (encryptedCampaigns s)).
Proof.
  destruct c; simpl;
    unfold submitEncryptedCampaign, requestCarbonFootprint, calculateFootprint,
      revealCarbonFootprint, finalizeReveal, onlyAdvertiser, at_index;
    intros E; repeat case_match; simplify_eq; simpl; eauto.
  right. eexists. split; [done |]. split; [| done]. done.
Qed.

(** The ids in use are those from 1 to the count, and a campaign carries its
    id. *)
Definition numbered `{Imports} (s : State) : Prop :=
  0 <= campaignCount s
  /\ forall i,
       match encryptedCampaigns s !! i with
       | Some c => 1 <= i <= campaignCount s /\ Campaign.id c = i
       | None => ~ 1 <= i <= campaignCount s
       end.

Lemma transact_numbered `{Imports} s t :
  numbered s ->
  numbered (transact s t)
  /\ campaignCount s <= campaignCount (transact s t)
  /\ forall i c, encryptedCampaigns s !! i = Some c ->
       encryptedCampaigns (transact s t) !! i = Some c.
Proof.
  intros [N0 N]. unfold transact.
  destruct (call t.1 t.2 s) as [s' | | |] eqn:E;
    try (split; [by split |]; split; [lia | done]).
  apply call_campaigns in E as [[C M] | (c0 & C & I & M)].
  - split; [| split; [lia | by rewrite M]].
    split; [lia |]. intros i. rewrite C, M. apply N.
  - split; [| split; [lia |]].
    + split; [lia |]. intros i. rewrite C, M.
      destruct (decide (i = campaignCount s + 1)) as [-> | Hi].
      * rewrite lookup_insert_eq. split; [lia | done].
      * rewrite lookup_insert_ne by done. specialize (N i).
        destruct (encryptedCampaigns s !! i); [split; [lia | apply N] | lia].
    + intros i c Hc. rewrite M.
      specialize (N i). rewrite Hc in N.
      rewrite lookup_insert_ne by lia. done.
Qed.

Lemma history_numbered `{Imports} txs : forall s,
  numbered s ->
  numbered (history txs s)
  /\ campaignCount s <= campaignCount (history txs s)
  /\ forall i c, encryptedCampaigns s !! i = Some c ->
       encryptedCampaigns (history txs s) !! i = Some c.
Proof.
  induction txs as [| t txs IH]; intros s N; simpl.
  - split; [done |]. split; [lia | done].
  - destruct (transact_numbered s t N) as (N1 & C1 & K1).
    destruct (IH _ N1) as (N2 & C2 & K2).
    split; [done |]. split; [unfold history in *; lia | auto].
Qed.

(** X27. In the storage reached from deployment by any transactions, the
    campaigns are exactly those of the ids 1 to [campaignCount], each
    carrying its id; and whatever transactions follow, the count does not go
    down and a submitted campaign stays as it was submitted: its advertiser
    and its ciphertexts cannot be changed. *)
Theorem campaigns_numbered_and_kept `{Imports} (txs txs' : list (Tx * Call)) :
  let s := history txs deployed in
  let s' := history txs' s in
  campaignCount s <= campaignCount s'
  /\ forall i,
       (is_Some (encryptedCampaigns s !! i) <-> 1 <= i <= campaignCount s)
       /\ forall c, encryptedCampaigns s !! i = Some c ->
            Campaign.id c = i /\ encryptedCampaigns s' !! i = Some c.
Proof.
  intros s s'.
  assert (N0 : numbered deployed).
  { split; [done |]. intros i. simpl. rewrite lookup_empty. lia. }
  destruct (history_numbered txs deployed N0) as ([C N] & _ & _). fold s in C, N.
  destruct (history_numbered txs' s (conj C N)) as (_ & C' & K). fold s' in C', K.
  split; [done |]. intros i. specialize (N i). split.
  - destruct (encryptedCampaigns s !! i).
    + split; [intros _; apply N | by eauto].
    + split; [by intros [? ?] | done].
  - intros c Hc. rewrite Hc in N. split; [apply N | by apply K].
Qed.

Lemma calculateFootprint_ok `{Imports} tx r c p s s' :
  calculateFootprint tx r c p s = Ok s' ->
  request_at s r <> 0
  /\ checkSignatures tx = true
  /\ exists i k d e rest,
       decode_uint32s c = Some (i :: k :: d :: e :: rest)
       /\ s' = {| campaignCount := campaignCount s;
                  encryptedCampaigns := encryptedCampaigns s;
                  carbonFootprints :=
                    <[request_at s r :=
                        with_encryptedCO2 (footprint_at s (request_at s r))
                          (add (mul (asEuint64 d) (asEuint64 2))
                               (mul (asEuint64 e) (asEuint64 500)))]>
                      (carbonFootprints s);
                  requestToCampaignId := requestToCampaignId s;
                  events := events s;
                  decryptions := decryptions s |}.
Proof.
  unfold calculateFootprint, at_index, calculateEncryptedCO2. intros E.
  case_bool_decide; [done |].
  destruct (checkSignatures tx); [| done]. simpl in E.
  destruct (decode_uint32s c) as [[| i [| k [| d [| e rest]]]] |];
    simpl in E; try done.
  simplify_eq. split; [done |]. split; [done |]. by eexists _, _, _, _, _.
Qed.

(** The footprint of every campaign keeps its [isRevealed] through a
    calculation. *)
Lemma calculateFootprint_isRevealed `{Imports} tx r c p s s' j :
  calculateFootprint tx r c p s = Ok s' ->
  Footprint.isRevealed (footprint_at s' j) = Footprint.isRevealed (footprint_at s j)
  /\ campaign_at s' j = campaign_at s j.
Proof.
  intros E. apply calculateFootprint_ok in E as (_ & _ & i & k & d & e & rest & _ & ->).
  unfold footprint_at, campaign_at; simpl. split; [| done].
  destruct (decide (j = request_at s r)) as [-> | Hj].
  - by rewrite lookup_insert_eq.
  - by rewrite lookup_insert_ne.
Qed.

Lemma requestCarbonFootprint_ok `{Imports} tx campaignId s s1 :
  requestCarbonFootprint tx campaignId s = Ok s1 ->
  Campaign.advertiser (campaign_at s campaignId) = sender tx
  /\ Footprint.isRevealed (footprint_at s campaignId) = false
  /\ encryptedCampaigns s1 = encryptedCampaigns s
  /\ carbonFootprints s1 = carbonFootprints s
  /\ request_at s1 (requestDecryption tx) = campaignId
  /\ events s1 = events s ++ [FootprintCalculationRequested campaignId]
  /\ length (decryptions s1) = S (length (decryptions s)).
Proof.
  unfold requestCarbonFootprint, onlyAdvertiser. intros E.
  case_bool_decide as A; [| done].
  destruct (Footprint.isRevealed (footprint_at s campaignId)) eqn:V; [done |].
  simplify_eq. unfold request_at; simpl. rewrite lookup_insert_eq.
  rewrite length_app; simpl. repeat split; try done. lia.
Qed.

Lemma requestCarbonFootprint_succeeds `{Imports} tx campaignId s :
  Campaign.advertiser (campaign_at s campaignId) = sender tx ->
  Footprint.isRevealed (footprint_at s campaignId) = false ->
  exists s1, requestCarbonFootprint tx campaignId s = Ok s1.
Proof.
  intros A V. unfold requestCarbonFootprint, onlyAdvertiser.
  rewrite bool_decide_true by done. rewrite V. by eexists.
Qed.

(** X28. The requirement "Already calculated" of [requestCarbonFootprint]
    looks at [isRevealed], which a calculation does not set: a request that
    succeeded succeeds again after any successful [calculateFootprint], for
    the same campaign and sender; once more a request is recorded and
    ciphertexts are handed to the library. *)
Theorem requestCarbonFootprint_again `{Imports} (tx tx' : Tx)
    (campaignId requestId : Z) (cleartexts proof : bytes) (s s1 s2 : State) :
  requestCarbonFootprint tx campaignId s = Ok s1 ->
  calculateFootprint tx' requestId cleartexts proof s1 = Ok s2 ->
  Campaign.advertiser (campaign_at s campaignId) = sender tx
  /\ Footprint.isRevealed (footprint_at s campaignId) = false
  /\ exists s3,
       requestCarbonFootprint tx campaignId s2 = Ok s3
       /\ request_at s3 (requestDecryption tx) = campaignId
       /\ events s3 = events s ++ [FootprintCalculationRequested campaignId;
                                   FootprintCalculationRequested campaignId]
       /\ length (decryptions s3) = S (S (length (decryptions s))).
Proof.
  intros E1 E2.
  apply requestCarbonFootprint_ok in E1 as (A & V & C1 & F1 & _ & Ev1 & D1).
  destruct (calculateFootprint_isRevealed _ _ _ _ _ _ campaignId E2) as [R2 C2].
  assert (P2 : events s2 = events s1 /\ decryptions s2 = decryptions s1).
  { apply calculateFootprint_ok in E2 as (_ & _ & i & k & d & e & rest & _ & ->).
    done. }
  destruct P2 as [Ev2 D2].
  split; [done |]. split; [done |].
  destruct (requestCarbonFootprint_succeeds tx campaignId s2) as [s3 E3].
  { rewrite C2. unfold campaign_at. by rewrite C1. }
  { rewrite R2. unfold footprint_at. by rewrite F1. }
  exists s3. split; [done |].
  apply requestCarbonFootprint_ok in E3 as (_ & _ & _ & _ & Q3 & Ev3 & D3).
  split; [done |].
  rewrite Ev3, Ev2, Ev1, <- app_assoc, D3, D2, D1. done.
Qed.

Lemma requestCarbonFootprint_again_witness :
  exists s3,
    @requestCarbonFootprint clear (advertiser_tx 1100 1) 1
      (@history clear
         [(advertiser_tx 1100 1, @RequestCarbonFootprint clear 1);
          (stranger_tx 1200, @CalculateFootprint clear 1 [5000; 40; 300; 12] [])]
         one_campaign)
    = Ok s3.
Proof.
  destruct (@requestCarbonFootprint_again clear
              (advertiser_tx 1100 1) (stranger_tx 1200) 1 1 [5000; 40; 300; 12] []
              one_campaign
              (@history clear
                 [(advertiser_tx 1100 1, @RequestCarbonFootprint clear 1)]
                 one_campaign)
              (@history clear
                 [(advertiser_tx 1100 1, @RequestCarbonFootprint clear 1);
                  (stranger_tx 1200,
                   @CalculateFootprint clear 1 [5000; 40; 300; 12] [])]
                 one_campaign))
    as (_ & _ & s3 & E & _); [reflexivity | reflexivity |].
  exists s3. exact E.
Defined.

(** X29. A successful [calculateFootprint] stores, for the campaign of the
    request, the encryption of 2 times the third cleartext plus 500 times the
    fourth.  The first two cleartexts (impressions and clicks), the sender
    and the proof play no part: any call with the same request, the same
    third and fourth cleartexts and signatures that check gives the same
    storage.  No event is emitted, and [isRevealed] and the timestamp of
    every footprint are kept. *)
Theorem calculateFootprint_formula `{Imports} (tx tx2 : Tx) (requestId : Z)
    (cleartexts proof proof2 : bytes) (s s' : State) :
  calculateFootprint tx requestId cleartexts proof s = Ok s' ->
  checkSignatures tx2 = true ->
  exists impressions clicks dataTransfer serverEnergy rest,
    decode_uint32s cleartexts
    = Some (impressions :: clicks :: dataTransfer :: serverEnergy :: rest)
    /\ Footprint.encryptedCO2 (footprint_at s' (request_at s requestId))
       = add (mul (asEuint64 dataTransfer) (asEuint64 2))
             (mul (asEuint64 serverEnergy) (asEuint64 500))
    /\ (forall cleartexts2 impressions2 clicks2 rest2,
          decode_uint32s cleartexts2
          = Some (impressions2 :: clicks2 :: dataTransfer :: serverEnergy :: rest2) ->
          calculateFootprint tx2 requestId cleartexts2 proof2 s = Ok s')
    /\ events s' = events s
    /\ forall j,
         Footprint.isRevealed (footprint_at s' j)
         = Footprint.isRevealed (footprint_at s j)
         /\ Footprint.timestamp (footprint_at s' j)
            = Footprint.timestamp (footprint_at s j)
         /\ (j <> request_at s requestId -> footprint_at s' j = footprint_at s j).
Proof.
  intros E S2.
  apply calculateFootprint_ok in E as (R & _ & i & k & d & e & rest & D & ->).
  exists i, k, d, e, rest. split; [done |].
  unfold footprint_at at 1; cbn [carbonFootprints]. rewrite lookup_insert_eq.
  split; [done |]. split.
  { intros c2 i2 k2 rest2 D2.
    unfold calculateFootprint, at_index, calculateEncryptedCO2.
    rewrite bool_decide_false by done. rewrite S2, D2. reflexivity. }
  split; [done |]. intros j. unfold footprint_at; cbn [carbonFootprints].
  destruct (decide (j = request_at s requestId)) as [-> | Hj].
  - rewrite lookup_insert_eq. by repeat split.
  - rewrite lookup_insert_ne by done. by repeat split.
Qed.

Lemma calculateFootprint_formula_witness :
  @Footprint.encryptedCO2 clear
    (footprint_at
       (@history clear
          [(advertiser_tx 1100 1, @RequestCarbonFootprint clear 1);
           (stranger_tx 1200, @CalculateFootprint clear 1 [5000; 40; 300; 12] [])]
          one_campaign)
       1)
  = Some 6600.
Proof.
  destruct (@calculateFootprint_formula clear
              (stranger_tx 1200) (advertiser_tx 1250 0) 1 [5000; 40; 300; 12] [] []
              (@history clear
                 [(advertiser_tx 1100 1, @RequestCarbonFootprint clear 1)]
                 one_campaign)
              (@history clear
                 [(advertiser_tx 1100 1, @RequestCarbonFootprint clear 1);
                  (stranger_tx 1200,
                   @CalculateFootprint clear 1 [5000; 40; 300; 12] [])]
                 one_campaign))
    as (i & k & d & e & rest & D & F & _); [reflexivity | reflexivity |].
  injection D as <- <- <- <- <-. exact F.
Defined.

Lemma finalizeReveal_ok `{Imports} tx r c p s s' :
  finalizeReveal tx r c p s = Ok s' ->
  request_at s r <> 0
  /\ exists co2Amount,
       decode_uint64 c = Some co2Amount
       /\ s' = {| campaignCount := campaignCount s;
                  encryptedCampaigns := encryptedCampaigns s;
                  carbonFootprints :=
                    <[request_at s r :=
                        {| Footprint.encryptedCO2 :=
                             Footprint.encryptedCO2 (footprint_at s (request_at s r));
                           Footprint.isRevealed := true;
                           Footprint.timestamp := block_timestamp tx |}]>
                      (carbonFootprints s);
                  requestToCampaignId := requestToCampaignId s;
                  events := events s ++ [FootprintRevealed (request_at s r) co2Amount];
                  decryptions := decryptions s |}.
Proof.
  unfold finalizeReveal. intros E.
  case_bool_decide; [done |].
  destruct (checkSignatures tx); [| done]. simpl in E.
  destruct (decode_uint64 c); [| done]. simplify_eq. eauto.
Qed.

(** X30. A successful [finalizeReveal] marks the footprint of the campaign of
    the request as revealed at the time of the block, keeps its ciphertext,
    and puts the revealed amount in the event only.  The request stays
    recorded: the same call succeeds again whenever the signatures check, and
    moves the timestamp.  From then on [getCampaign] reports the footprint
    as revealed, and [requestCarbonFootprint] and [revealCarbonFootprint]
    revert for the advertiser of that campaign. *)
Theorem finalizeReveal_once_revealed `{Imports} (tx tx2 tx3 : Tx)
    (requestId : Z) (cleartexts proof : bytes) (s s1 : State) :
  finalizeReveal tx requestId cleartexts proof s = Ok s1 ->
  checkSignatures tx2 = true ->
  Campaign.advertiser (campaign_at s (request_at s requestId)) = sender tx3 ->
  let campaignId := request_at s requestId in
  footprint_at s1 campaignId
  = {| Footprint.encryptedCO2 := Footprint.encryptedCO2 (footprint_at s campaignId);
       Footprint.isRevealed := true;
       Footprint.timestamp := block_timestamp tx |}
  /\ (exists co2Amount s2,
        decode_uint64 cleartexts = Some co2Amount
        /\ events s1 = events s ++ [FootprintRevealed campaignId co2Amount]
        /\ finalizeReveal tx2 requestId cleartexts proof s1 = Ok s2
        /\ Footprint.timestamp (footprint_at s2 campaignId) = block_timestamp tx2
        /\ events s2
           = events s ++ [FootprintRevealed campaignId co2Amount;
                          FootprintRevealed campaignId co2Amount])
  /\ (getCampaign campaignId s1).2 = true
  /\ requestCarbonFootprint tx3 campaignId s1 = Revert "Already calculated"
  /\ revealCarbonFootprint tx3 campaignId s1 = Revert "Already revealed".
Proof.
  intros E S2 A campaignId.
  apply finalizeReveal_ok in E as (R & a & D & E). fold campaignId in R, E.
  assert (F1 : footprint_at s1 campaignId
               = {| Footprint.encryptedCO2 :=
                      Footprint.encryptedCO2 (footprint_at s campaignId);
                    Footprint.isRevealed := true;
                    Footprint.timestamp := block_timestamp tx |}).
  { rewrite E. unfold footprint_at at 1; cbn [carbonFootprints].
    by rewrite lookup_insert_eq. }
  assert (C1 : campaign_at s1 campaignId = campaign_at s campaignId)
    by (by rewrite E).
  assert (R1 : request_at s1 requestId = campaignId) by (by rewrite E).
  assert (Ev1 : events s1 = events s ++ [FootprintRevealed campaignId a])
    by (by rewrite E).
  clear E.
  split; [done |]. split.
  - exists a. eexists. split; [done |]. split; [done |].
    unfold finalizeReveal. rewrite R1.
    rewrite bool_decide_false by done. rewrite S2, D. cbn [negb].
    split; [reflexivity |].
    unfold footprint_at at 1; cbn [carbonFootprints events].
    rewrite lookup_insert_eq, Ev1, <- app_assoc. done.
  - unfold getCampaign, requestCarbonFootprint, revealCarbonFootprint,
      onlyAdvertiser.
    rewrite F1, C1. fold campaignId in A.
    rewrite bool_decide_true by done. done.
Qed.

Lemma finalizeReveal_once_revealed_witness :
  @requestCarbonFootprint clear (advertiser_tx 1500 4) 1
    (@history clear
       [(advertiser_tx 1100 1, @RequestCarbonFootprint clear 1);
        (stranger_tx 1200, @CalculateFootprint clear 1 [5000; 40; 300; 12] []);
        (advertiser_tx 1300 2, @RevealCarbonFootprint clear 1);
        (stranger_tx 1400, @FinalizeReveal clear 2 [6600] [])]
       one_campaign)
  = Revert "Already calculated".
Proof.
  apply (@finalizeReveal_once_revealed clear
           (stranger_tx 1400) (stranger_tx 1450) (advertiser_tx 1500 4)
           2 [6600] []
           (@history clear
              [(advertiser_tx 1100 1, @RequestCarbonFootprint clear 1);
               (stranger_tx 1200, @CalculateFootprint clear 1 [5000; 40; 300; 12] []);
               (advertiser_tx 1300 2, @RevealCarbonFootprint clear 1)]
              one_campaign));
    reflexivity.
Defined.
